(** * CascHandles: the extractor's facade over the CASC storage library

    Shallow embedding of [src/tools/extractor_common/CascHandles.cpp].

    The C++ file is a thin layer: every function forwards to one call of the
    storage library and adds error bookkeeping (the process-wide last-error
    cell), console diagnostics and scoped handle ownership.  The embedding
    keeps that shape:

    - machine integers are [Z] with the conversions written out;
    - the constants the file takes from the library headers are the fields
      of the class [CascHeader];
    - the library entry points are the fields of the class [CascLib], acting
      on the library's private state and the last-error cell;
    - the functions of the file run in a state monad over [Process], which
      also carries the two console streams and the log of calls made. *)

From Stdlib Require Import ZArith List String Ascii Bool Lia DecimalString.
From Stdlib Require Import DecimalPos DecimalN.
Import ListNotations.

Open Scope string_scope.
Open Scope list_scope.
Open Scope Z_scope.

Module CASC.

(** ** Machine integers and handles *)

(** [DWORD] is an unsigned 32-bit integer, [LONG] a signed 32-bit integer,
    [LONGLONG] a signed 64-bit integer, [BYTE] an unsigned 8-bit integer;
    all are read as [Z], the type names being kept for the signatures. *)
Abbreviation DWORD := Z (only parsing).
Abbreviation LONG := Z (only parsing).
Abbreviation LONGLONG := Z (only parsing).
Abbreviation ULONGLONG := Z (only parsing).
Abbreviation BYTE := Z (only parsing).

Definition is_DWORD (z : Z) : Prop := 0 <= z < 2 ^ 32.
Definition is_LONG (z : Z) : Prop := - 2 ^ 31 <= z < 2 ^ 31.
Definition is_LONGLONG (z : Z) : Prop := - 2 ^ 63 <= z < 2 ^ 63.

(** Conversion of an integer to [DWORD]: reduction modulo 2^32. *)
Definition to_DWORD (z : Z) : DWORD := z mod 2 ^ 32.

(** Conversion of an integer to [LONG]: the two's-complement reading of its
    low 32 bits. *)
Definition to_LONG (z : Z) : LONG := (z + 2 ^ 31) mod 2 ^ 32 - 2 ^ 31.

(** A [HANDLE] is an opaque pointer; it is modelled by its address read as a
    signed integer, so that the null pointer is 0 and [(HANDLE)-1] is -1. *)
Abbreviation HANDLE := Z (only parsing).
Definition nullptr : HANDLE := 0.
Definition INVALID_HANDLE_VALUE : HANDLE := -1.

(** ** Constants of the library headers

    [CascLib.h] and the port header are not part of the embedded file; the
    values it uses from them are taken as parameters. *)
Class CascHeader := {
  ERROR_SUCCESS : DWORD;
  ERROR_FILE_CORRUPT : DWORD;
  ERROR_CAN_NOT_COMPLETE : DWORD;
  ERROR_HANDLE_EOF : DWORD;
  ERROR_NO_MORE_FILES : DWORD;
  ERROR_BAD_FORMAT : DWORD;
  ERROR_INSUFFICIENT_BUFFER : DWORD;
  ERROR_ALREADY_EXISTS : DWORD;
  ERROR_DISK_FULL : DWORD;
  ERROR_INVALID_PARAMETER : DWORD;
  ERROR_NOT_SUPPORTED : DWORD;
  ERROR_NOT_ENOUGH_MEMORY : DWORD;
  ERROR_INVALID_HANDLE : DWORD;
  ERROR_ACCESS_DENIED : DWORD;
  ERROR_FILE_NOT_FOUND : DWORD;
  ERROR_FILE_ENCRYPTED : DWORD;
  CASC_OPEN_BY_NAME : DWORD;
  CASC_OPEN_BY_FILEID : DWORD;
  CASC_OVERCOME_ENCRYPTED : DWORD;
  FILE_BEGIN : DWORD;
  FILE_CURRENT : DWORD;
  CASC_INVALID_POS : DWORD;
  sizeof_CASC_STORAGE_PRODUCT : Z
}.

(** The sixteen status codes the file names, in the order of its [switch]. *)
Definition defined_codes `{CascHeader} : list DWORD :=
  [ ERROR_SUCCESS; ERROR_FILE_CORRUPT; ERROR_CAN_NOT_COMPLETE;
    ERROR_HANDLE_EOF; ERROR_NO_MORE_FILES; ERROR_BAD_FORMAT;
    ERROR_INSUFFICIENT_BUFFER; ERROR_ALREADY_EXISTS; ERROR_DISK_FULL;
    ERROR_INVALID_PARAMETER; ERROR_NOT_SUPPORTED; ERROR_NOT_ENOUGH_MEMORY;
    ERROR_INVALID_HANDLE; ERROR_ACCESS_DENIED; ERROR_FILE_NOT_FOUND;
    ERROR_FILE_ENCRYPTED ].

(** What every header that can stand behind the file provides for the status
    codes: the case labels of a [switch] are pairwise distinct (the file
    would not compile otherwise), success is code 0, and the codes are small
    non-negative numbers (system error codes and errno values fit 16 bits). *)
Definition codes_ok `{CascHeader} : Prop :=
  NoDup defined_codes /\
  ERROR_SUCCESS = 0 /\
  Forall (fun c => 0 <= c < 2 ^ 16) defined_codes.

(** What it provides for the flags and seek methods: the zero-fill bit is a
    real bit outside the two open modes, the two seek methods differ, and
    the invalid position is the all-ones [DWORD]. *)
Definition flags_ok `{CascHeader} : Prop :=
  is_DWORD CASC_OPEN_BY_NAME /\
  is_DWORD CASC_OPEN_BY_FILEID /\
  0 < CASC_OVERCOME_ENCRYPTED < 2 ^ 32 /\
  Z.land CASC_OPEN_BY_NAME CASC_OVERCOME_ENCRYPTED = 0 /\
  Z.land CASC_OPEN_BY_FILEID CASC_OVERCOME_ENCRYPTED = 0 /\
  FILE_BEGIN <> FILE_CURRENT /\
  CASC_INVALID_POS = 2 ^ 32 - 1.

(** The values of the library's port header on a POSIX host (errno numbers
    of Linux where the header defers to them). *)
Definition posix_header : CascHeader := {|
  ERROR_SUCCESS := 0;
  ERROR_FILE_CORRUPT := 1004;
  ERROR_CAN_NOT_COMPLETE := 1003;
  ERROR_HANDLE_EOF := 1002;
  ERROR_NO_MORE_FILES := 1001;
  ERROR_BAD_FORMAT := 1000;
  ERROR_INSUFFICIENT_BUFFER := 105;
  ERROR_ALREADY_EXISTS := 17;
  ERROR_DISK_FULL := 28;
  ERROR_INVALID_PARAMETER := 22;
  ERROR_NOT_SUPPORTED := 95;
  ERROR_NOT_ENOUGH_MEMORY := 12;
  ERROR_INVALID_HANDLE := 9;
  ERROR_ACCESS_DENIED := 1;
  ERROR_FILE_NOT_FOUND := 2;
  ERROR_FILE_ENCRYPTED := 1005;
  CASC_OPEN_BY_NAME := 0;
  CASC_OPEN_BY_FILEID := 3;
  CASC_OVERCOME_ENCRYPTED := 32;
  FILE_BEGIN := 0;
  FILE_CURRENT := 1;
  CASC_INVALID_POS := 4294967295;
  sizeof_CASC_STORAGE_PRODUCT := 16
  |}.

(** The values on a Windows host, where the status codes are those of
    [winerror.h]. *)
Definition windows_header : CascHeader := {|
  ERROR_SUCCESS := 0;
  ERROR_FILE_CORRUPT := 1392;
  ERROR_CAN_NOT_COMPLETE := 1003;
  ERROR_HANDLE_EOF := 38;
  ERROR_NO_MORE_FILES := 18;
  ERROR_BAD_FORMAT := 11;
  ERROR_INSUFFICIENT_BUFFER := 122;
  ERROR_ALREADY_EXISTS := 183;
  ERROR_DISK_FULL := 112;
  ERROR_INVALID_PARAMETER := 87;
  ERROR_NOT_SUPPORTED := 50;
  ERROR_NOT_ENOUGH_MEMORY := 8;
  ERROR_INVALID_HANDLE := 6;
  ERROR_ACCESS_DENIED := 5;
  ERROR_FILE_NOT_FOUND := 2;
  ERROR_FILE_ENCRYPTED := 6002;
  CASC_OPEN_BY_NAME := 0;
  CASC_OPEN_BY_FILEID := 3;
  CASC_OVERCOME_ENCRYPTED := 32;
  FILE_BEGIN := 0;
  FILE_CURRENT := 1;
  CASC_INVALID_POS := 4294967295;
  sizeof_CASC_STORAGE_PRODUCT := 16
  |}.

(** ** Error decoding *)

Section ErrorDecoding.
Context `{hdr : CascHeader}.

(** [char const* CASC::HumanReadableCASCError(DWORD error)]: the [switch]
    over the status codes, read in the order of its cases. *)
Definition HumanReadableCASCError (error : DWORD) : string :=
  if error =? ERROR_SUCCESS then "SUCCESS"
  else if error =? ERROR_FILE_CORRUPT then "FILE_CORRUPT"
  else if error =? ERROR_CAN_NOT_COMPLETE then "CAN_NOT_COMPLETE"
  else if error =? ERROR_HANDLE_EOF then "HANDLE_EOF"
  else if error =? ERROR_NO_MORE_FILES then "NO_MORE_FILES"
  else if error =? ERROR_BAD_FORMAT then "BAD_FORMAT"
  else if error =? ERROR_INSUFFICIENT_BUFFER then "INSUFFICIENT_BUFFER"
  else if error =? ERROR_ALREADY_EXISTS then "ALREADY_EXISTS"
  else if error =? ERROR_DISK_FULL then "DISK_FULL"
  else if error =? ERROR_INVALID_PARAMETER then "INVALID_PARAMETER"
  else if error =? ERROR_NOT_SUPPORTED then "NOT_SUPPORTED"
  else if error =? ERROR_NOT_ENOUGH_MEMORY then "NOT_ENOUGH_MEMORY"
  else if error =? ERROR_INVALID_HANDLE then "INVALID_HANDLE"
  else if error =? ERROR_ACCESS_DENIED then "ACCESS_DENIED"
  else if error =? ERROR_FILE_NOT_FOUND then "FILE_NOT_FOUND"
  else if error =? ERROR_FILE_ENCRYPTED then "FILE_ENCRYPTED"
  else "UNKNOWN".

End ErrorDecoding.

(** ** Data crossing the library interface *)

(** The two members of [CASC_STORAGE_INFO_CLASS] the file asks for. *)
Inductive CASC_STORAGE_INFO_CLASS :=
| CascStorageInstalledLocales
| CascStorageProduct.

(** [CASC_STORAGE_PRODUCT], reduced to the field the file reads. *)
Record CASC_STORAGE_PRODUCT := { dwBuildNumber : DWORD }.

(** The instances of the template parameter [T] of [GetStorageInfo]: what
    the [void*] buffer handed to the library points to. *)
Inductive InfoType := T_DWORD | T_CASC_STORAGE_PRODUCT.

Definition info_value (T : InfoType) : Type :=
  match T with
  | T_DWORD => DWORD
  | T_CASC_STORAGE_PRODUCT => CASC_STORAGE_PRODUCT
  end.

Definition sizeof `{CascHeader} (T : InfoType) : Z :=
  match T with
  | T_DWORD => 4
  | T_CASC_STORAGE_PRODUCT => sizeof_CASC_STORAGE_PRODUCT
  end.

(** The [pszFileName] argument of the library's file open: a C string, or a
    file-data id cast to that pointer type by the macro [CASC_FILE_DATA_ID]. *)
Inductive LPCSTR :=
| c_str (s : string)
| CASC_FILE_DATA_ID (fileDataId : DWORD).

(** The library's private state together with the last-error cell, which
    the library writes on failure. *)
Record Sys (L : Type) := mkSys {
  lib_state : L;
  last_error : DWORD
}.
Arguments mkSys {L} _ _.
Arguments lib_state {L} _.
Arguments last_error {L} _.

(** The entry points of the storage library used by the file.  A pointer
    argument through which the library returns a value is an argument
    holding the pointed-to content before the call and a result holding it
    after the call; a pointer that may be null is an [option]. *)
Class CascLib (L : Type) := {
  lib_CascOpenStorage :
    string -> DWORD -> HANDLE -> Sys L -> (bool * HANDLE) * Sys L;
  lib_CascCloseStorage :
    HANDLE -> Sys L -> bool * Sys L;
  lib_CascGetStorageInfo :
    forall T : InfoType,
      HANDLE -> CASC_STORAGE_INFO_CLASS -> info_value T -> Z -> Z ->
      Sys L -> (bool * info_value T * Z) * Sys L;
  lib_CascFindEncryptionKey :
    HANDLE -> ULONGLONG -> Sys L -> Z * Sys L;
  lib_CascOpenFile :
    HANDLE -> LPCSTR -> DWORD -> DWORD -> HANDLE ->
    Sys L -> (bool * HANDLE) * Sys L;
  lib_CascCloseFile :
    HANDLE -> Sys L -> bool * Sys L;
  lib_CascGetFileSize :
    HANDLE -> option DWORD -> Sys L -> (DWORD * option DWORD) * Sys L;
  lib_CascSetFilePointer :
    HANDLE -> LONG -> option LONG -> DWORD ->
    Sys L -> (DWORD * option LONG) * Sys L;
  lib_CascReadFile :
    HANDLE -> DWORD -> option DWORD ->
    Sys L -> (bool * list BYTE * option DWORD) * Sys L
}.

(** ** The process and its monad *)

(** One entry of the call log: a library entry point or a last-error
    primitive, with the arguments passed by value. *)
Inductive Call :=
| CallOpenStorage (path : string) (localeMask : DWORD)
| CallCloseStorage (h : HANDLE)
| CallGetStorageInfo (h : HANDLE) (c : CASC_STORAGE_INFO_CLASS) (size : Z)
| CallFindEncryptionKey (h : HANDLE) (key : ULONGLONG)
| CallOpenFile (h : HANDLE) (name : LPCSTR) (localeMask flags : DWORD)
| CallCloseFile (h : HANDLE)
| CallGetFileSize (h : HANDLE) (high : option DWORD)
| CallSetFilePointer (h : HANDLE) (lo : LONG) (hi : option LONG)
    (method : DWORD)
| CallReadFile (h : HANDLE) (bytes : DWORD)
| CallGetLastError
| CallSetLastError (e : DWORD).

Record Process (L : Type) := mkProcess {
  sys : Sys L;
  stdout : list string;
  stderr : list string;
  calls : list Call
}.
Arguments mkProcess {L} _ _ _ _.
Arguments sys {L} _.
Arguments stdout {L} _.
Arguments stderr {L} _.
Arguments calls {L} _.

Definition M (L A : Type) : Type := Process L -> A * Process L.

Definition ret {L A} (a : A) : M L A := fun p => (a, p).

Definition bind {L A B} (m : M L A) (k : A -> M L B) : M L B :=
  fun p => let (a, p') := m p in k a p'.

Declare Scope casc_scope.
Delimit Scope casc_scope with casc.
Notation "x <- m ;; k" := (bind m (fun x => k))
  (at level 61, m at next level, right associativity) : casc_scope.
Notation "m ;; k" := (bind m (fun _ => k))
  (at level 61, right associativity) : casc_scope.
Notation "' pat <- m ;; k" := (bind m (fun x => match x with pat => k end))
  (at level 61, pat pattern, m at next level, right associativity)
  : casc_scope.
Open Scope casc_scope.

Definition nl : string := String (ascii_of_nat 10) EmptyString.

(** [%u] of a [DWORD]. *)
Definition format_u (d : DWORD) : string :=
  NilZero.string_of_uint (N.to_uint (Z.to_N d)).

Section Primitives.
Context {L : Type} `{lib : CascLib L}.

(** Runs a library entry point on the process and logs the call. *)
Definition invoke {A} (c : Call) (op : Sys L -> A * Sys L) : M L A :=
  fun p =>
    let (a, s) := op (sys p) in
    (a, mkProcess s (stdout p) (stderr p) (calls p ++ [c])).

(** Modelled from the spec: the two last-error primitives, which are
    missing; they read and write the "retrievable last error value" of the
    process. *)
Definition GetLastError : M L DWORD :=
  fun p =>
    (last_error (sys p),
     mkProcess (sys p) (stdout p) (stderr p) (calls p ++ [CallGetLastError])).

Definition SetLastError (e : DWORD) : M L unit :=
  fun p =>
    (tt,
     mkProcess (mkSys (lib_state (sys p)) e) (stdout p) (stderr p)
       (calls p ++ [CallSetLastError e])).

(** [printf] with the format already expanded. *)
Definition printf (text : string) : M L unit :=
  fun p => (tt, mkProcess (sys p) (stdout p ++ [text]) (stderr p) (calls p)).

(** [fprintf(stderr, ...)] with the format already expanded. *)
Definition fprintf_stderr (text : string) : M L unit :=
  fun p => (tt, mkProcess (sys p) (stdout p) (stderr p ++ [text]) (calls p)).

(** The library entry points as seen from the file.  The [DWORD] a size
    query or a seek returns is read at that type. *)
Definition CascOpenStorage (path : string) (localeMask : DWORD)
    (handle : HANDLE) : M L (bool * HANDLE) :=
  invoke (CallOpenStorage path localeMask)
    (lib_CascOpenStorage path localeMask handle).

Definition CascCloseStorage (handle : HANDLE) : M L bool :=
  invoke (CallCloseStorage handle) (lib_CascCloseStorage handle).

Definition CascGetStorageInfo {T : InfoType} (handle : HANDLE)
    (c : CASC_STORAGE_INFO_CLASS) (value : info_value T) (size needed : Z)
    : M L (bool * info_value T * Z) :=
  invoke (CallGetStorageInfo handle c size)
    (lib_CascGetStorageInfo T handle c value size needed).

Definition CascFindEncryptionKey (handle : HANDLE) (keyLookup : ULONGLONG)
    : M L Z :=
  invoke (CallFindEncryptionKey handle keyLookup)
    (lib_CascFindEncryptionKey handle keyLookup).

Definition CascOpenFile (storage : HANDLE) (name : LPCSTR)
    (localeMask openFlags : DWORD) (handle : HANDLE) : M L (bool * HANDLE) :=
  invoke (CallOpenFile storage name localeMask openFlags)
    (lib_CascOpenFile storage name localeMask openFlags handle).

Definition CascCloseFile (handle : HANDLE) : M L bool :=
  invoke (CallCloseFile handle) (lib_CascCloseFile handle).

Definition CascGetFileSize (handle : HANDLE) (high : option DWORD)
    : M L (DWORD * option DWORD) :=
  invoke (CallGetFileSize handle high)
  (fun s =>
     let '((r, high'), s') := lib_CascGetFileSize handle high s in
     ((to_DWORD r, high'), s')).

Definition CascSetFilePointer (handle : HANDLE) (lo : LONG)
    (hi : option LONG) (method : DWORD) : M L (DWORD * option LONG) :=
  invoke (CallSetFilePointer handle lo hi method)
    (fun s =>
       let '((r, hi'), s') := lib_CascSetFilePointer handle lo hi method s in
       ((to_DWORD r, hi'), s')).

Definition CascReadFile (handle : HANDLE) (bytes : DWORD)
    (bytesRead : option DWORD) : M L (bool * list BYTE * option DWORD) :=
  invoke (CallReadFile handle bytes)
    (lib_CascReadFile handle bytes bytesRead).

End Primitives.

(** ** Owning handles *)

(** [StorageHandle] and [FileHandle] are [std::unique_ptr<void, Deleter>]:
    a raw handle that is null when the wrapper is empty. *)
Record StorageHandle := mkStorageHandle { storage_get : HANDLE }.
Record FileHandle := mkFileHandle { file_get : HANDLE }.

(** The default-constructed, empty wrappers [StorageHandle()] and
    [FileHandle()]. *)
Definition StorageHandle_empty : StorageHandle := mkStorageHandle nullptr.
Definition FileHandle_empty : FileHandle := mkFileHandle nullptr.

(** ** Object representation used by [memcpy]

    Integers are laid out in two's complement, least significant byte first
    (the byte order of the hosts the extractor is built for). *)
Fixpoint le_bytes (n : nat) (z : Z) : list BYTE :=
  match n with
  | O => []
  | S n' => z mod 256 :: le_bytes n' (z / 256)
  end.

Fixpoint le_value (bs : list BYTE) : Z :=
  match bs with
  | [] => 0
  | b :: bs' => b + 256 * le_value bs'
  end.

Definition bytes_of_LONGLONG (x : LONGLONG) : list BYTE := le_bytes 8 x.
Definition LONG_of_bytes (bs : list BYTE) : LONG := to_LONG (le_value bs).

(** [memcpy(parts, &position, sizeof(parts))] for [LONG parts[2]]: the two
    array elements read back from the eight copied bytes. *)
Definition memcpy_parts (position : LONGLONG) : LONG * LONG :=
  let object := firstn 8 (bytes_of_LONGLONG position) in
  (LONG_of_bytes (firstn 4 object), LONG_of_bytes (firstn 4 (skipn 4 object))).

(** ** The functions of the file *)

Section Facade.
Context `{hdr : CascHeader} {L : Type} `{lib : CascLib L}.

(** [void CASC::StorageDeleter::operator()(HANDLE handle)] *)
Definition StorageDeleter (handle : HANDLE) : M L unit :=
  if negb (handle =? nullptr) && negb (handle =? INVALID_HANDLE_VALUE)
  then CascCloseStorage handle ;; ret tt
  else ret tt.

(** [void CASC::FileDeleter::operator()(HANDLE handle)] *)
Definition FileDeleter (handle : HANDLE) : M L unit :=
  if negb (handle =? nullptr) && negb (handle =? INVALID_HANDLE_VALUE)
  then CascCloseFile handle ;; ret tt
  else ret tt.

(** The destructor of [std::unique_ptr]: the deleter runs on the owned
    pointer unless the wrapper is empty. *)
Definition StorageHandle_destroy (storage : StorageHandle) : M L unit :=
  if storage_get storage =? nullptr then ret tt
  else StorageDeleter (storage_get storage).

Definition FileHandle_destroy (file : FileHandle) : M L unit :=
  if file_get file =? nullptr then ret tt
  else FileDeleter (file_get file).

(** [CASC::StorageHandle CASC::OpenStorage(path, localeMask)] *)
Definition OpenStorage (path : string) (localeMask : DWORD)
    : M L StorageHandle :=
  let handle := nullptr in
  '(ok, handle) <- CascOpenStorage path localeMask handle ;;
  if negb ok then
    lastError <- GetLastError ;;
    printf ("Error opening casc storage '" ++ path ++ "': "
            ++ HumanReadableCASCError lastError ++ nl)%string ;;
    CascCloseStorage handle ;;
    SetLastError lastError ;;
    ret StorageHandle_empty
  else
    printf ("Opened casc storage '" ++ path ++ "'" ++ nl)%string ;;
    ret (mkStorageHandle handle).

(** [template<typename T> static bool GetStorageInfo(storage, class, T* value)]:
    [value] is the content of the caller's object before the call, the
    second result its content after the call. *)
Definition GetStorageInfo {T : InfoType} (storage : StorageHandle)
    (storageInfoClass : CASC_STORAGE_INFO_CLASS) (value : info_value T)
    : M L (bool * info_value T) :=
  let infoDataSizeNeeded := 0 in
  '(ok, value, _) <- CascGetStorageInfo (storage_get storage)
                       storageInfoClass value (sizeof T) infoDataSizeNeeded ;;
  ret (ok, value).

(** [DWORD CASC::GetBuildNumber(storage)].  The local [product] is not
    initialised; [product] below is whatever it holds on entry. *)
Definition GetBuildNumber (product : CASC_STORAGE_PRODUCT)
    (storage : StorageHandle) : M L DWORD :=
  '(ok, product) <- GetStorageInfo (T := T_CASC_STORAGE_PRODUCT) storage
                      CascStorageProduct product ;;
  if ok then ret (dwBuildNumber product) else ret 0.

(** [DWORD CASC::GetInstalledLocalesMask(storage)].  The local [locales]
    is not initialised; [locales] below is whatever it holds on entry. *)
Definition GetInstalledLocalesMask (locales : DWORD)
    (storage : StorageHandle) : M L DWORD :=
  '(ok, locales) <- GetStorageInfo (T := T_DWORD) storage
                      CascStorageInstalledLocales locales ;;
  if ok then ret locales else ret 0.

(** [bool CASC::HasTactKey(storage, keyLookup)] *)
Definition HasTactKey (storage : StorageHandle) (keyLookup : ULONGLONG)
    : M L bool :=
  key <- CascFindEncryptionKey (storage_get storage) keyLookup ;;
  ret (negb (key =? nullptr)).

(** [CASC::FileHandle CASC::OpenFile(storage, char const* fileName,
    localeMask, printErrors, zerofillEncryptedParts)] *)
Definition OpenFile (storage : StorageHandle) (fileName : string)
    (localeMask : DWORD) (printErrors zerofillEncryptedParts : bool)
    : M L FileHandle :=
  let openFlags := CASC_OPEN_BY_NAME in
  let openFlags :=
    if zerofillEncryptedParts
    then Z.lor openFlags CASC_OVERCOME_ENCRYPTED else openFlags in
  let handle := nullptr in
  '(ok, handle) <- CascOpenFile (storage_get storage) (c_str fileName)
                     localeMask openFlags handle ;;
  if negb ok then
    lastError <- GetLastError ;;
    (if printErrors
     then fprintf_stderr ("Failed to open '" ++ fileName
                          ++ "' in CASC storage: "
                          ++ HumanReadableCASCError lastError ++ nl)%string
     else ret tt) ;;
    CascCloseFile handle ;;
    SetLastError lastError ;;
    ret FileHandle_empty
  else
    ret (mkFileHandle handle).

(** [CASC::FileHandle CASC::OpenFile(storage, DWORD fileDataId,
    localeMask, printErrors, zerofillEncryptedParts)] *)
Definition OpenFile_id (storage : StorageHandle) (fileDataId : DWORD)
    (localeMask : DWORD) (printErrors zerofillEncryptedParts : bool)
    : M L FileHandle :=
  let openFlags := CASC_OPEN_BY_FILEID in
  let openFlags :=
    if zerofillEncryptedParts
    then Z.lor openFlags CASC_OVERCOME_ENCRYPTED else openFlags in
  let handle := nullptr in
  '(ok, handle) <- CascOpenFile (storage_get storage)
                     (CASC_FILE_DATA_ID fileDataId)
                     localeMask openFlags handle ;;
  if negb ok then
    lastError <- GetLastError ;;
    (if printErrors
     then fprintf_stderr ("Failed to open 'FileDataId "
                          ++ format_u fileDataId
                          ++ "' in CASC storage: "
                          ++ HumanReadableCASCError lastError ++ nl)%string
     else ret tt) ;;
    CascCloseFile handle ;;
    SetLastError lastError ;;
    ret FileHandle_empty
  else
    ret (mkFileHandle handle).

(** [DWORD CASC::GetFileSize(file, PDWORD fileSizeHigh)] *)
Definition GetFileSize (file : FileHandle) (fileSizeHigh : option DWORD)
    : M L (DWORD * option DWORD) :=
  CascGetFileSize (file_get file) fileSizeHigh.

(** [DWORD CASC::GetFilePointer(file)] *)
Definition GetFilePointer (file : FileHandle) : M L DWORD :=
  '(r, _) <- CascSetFilePointer (file_get file) 0 None FILE_CURRENT ;;
  ret r.

(** [bool CASC::SetFilePointer(file, LONGLONG position)] *)
Definition SetFilePointer (file : FileHandle) (position : LONGLONG)
    : M L bool :=
  let parts := memcpy_parts position in
  '(r, _) <- CascSetFilePointer (file_get file) (fst parts)
               (Some (snd parts)) FILE_BEGIN ;;
  ret (negb (r =? CASC_INVALID_POS)).

(** [bool CASC::ReadFile(file, buffer, bytes, PDWORD bytesRead)]: the
    bytes stored into [buffer] are the second result, the content of
    [*bytesRead] after the call the third. *)
Definition ReadFile (file : FileHandle) (bytes : DWORD)
    (bytesRead : option DWORD) : M L (bool * list BYTE * option DWORD) :=
  CascReadFile (file_get file) bytes bytesRead.

End Facade.

(** ** Reference model of the storage library *)

(** Modelled from the spec: the storage library behind the file, whose code
    is missing.  The claims that speak of what its calls do (where the
    cursor ends up, how many bytes a read yields, what happens on an
    encrypted region) are settled against this model, which gives each
    operation the behaviour the specification describes for it. *)
Module Ref.

(** An encrypted region of an entry and the id of the key it needs. *)
Record Span := mkSpan {
  sp_start : Z;
  sp_len : Z;
  sp_key : ULONGLONG
}.

(** An archive entry: its two names, its size, its plain content as a
    function of the offset, and its encrypted regions. *)
Record Entry := mkEntry {
  e_name : string;
  e_id : DWORD;
  e_size : Z;
  e_byte : Z -> BYTE;
  e_spans : list Span
}.

Record Archive := mkArchive {
  a_build : DWORD;
  a_locales : DWORD;
  a_keys : list ULONGLONG;
  a_entries : list Entry
}.

(** An open entry: the keys of its storage, whether zero-fill was
    requested when it was opened, and the read cursor. *)
Record Opened := mkOpened {
  of_entry : Entry;
  of_keys : list ULONGLONG;
  of_zerofill : bool;
  of_pos : Z
}.

Record State := mkState {
  disk : list (string * Archive);
  storages : list (HANDLE * Archive);
  files : list (HANDLE * Opened);
  fresh : HANDLE
}.

Fixpoint lookup {A} (h : HANDLE) (l : list (HANDLE * A)) : option A :=
  match l with
  | [] => None
  | (k, a) :: l' => if k =? h then Some a else lookup h l'
  end.

Fixpoint update {A} (h : HANDLE) (a : A) (l : list (HANDLE * A))
    : list (HANDLE * A) :=
  match l with
  | [] => []
  | (k, x) :: l' => if k =? h then (k, a) :: l' else (k, x) :: update h a l'
  end.

Fixpoint remove {A} (h : HANDLE) (l : list (HANDLE * A))
    : list (HANDLE * A) :=
  match l with
  | [] => []
  | (k, x) :: l' => if k =? h then l' else (k, x) :: remove h l'
  end.

Fixpoint find_archive (path : string) (d : list (string * Archive))
    : option Archive :=
  match d with
  | [] => None
  | (k, a) :: d' => if String.eqb k path then Some a else find_archive path d'
  end.

Definition names (name : LPCSTR) (e : Entry) : bool :=
  match name with
  | c_str s => String.eqb s (e_name e)
  | CASC_FILE_DATA_ID i => i =? e_id e
  end.

Definition has_key (keys : list ULONGLONG) (k : ULONGLONG) : bool :=
  existsb (Z.eqb k) keys.

Definition in_span (i : Z) (sp : Span) : bool :=
  (sp_start sp <=? i) && (i <? sp_start sp + sp_len sp).

(** Offset [i] of the open entry lies in an encrypted region whose key the
    storage does not hold. *)
Definition locked (f : Opened) (i : Z) : bool :=
  existsb (fun sp => in_span i sp && negb (has_key (of_keys f) (sp_key sp)))
    (e_spans (of_entry f)).

(** The offsets [pos, pos + n). *)
Definition offsets (pos n : Z) : list Z :=
  map (fun k => pos + Z.of_nat k) (seq 0 (Z.to_nat n)).

Definition set_pos (f : Opened) (pos : Z) : Opened :=
  mkOpened (of_entry f) (of_keys f) (of_zerofill f) pos.

Section Model.
Context `{hdr : CascHeader}.

Definition fail {A} (a : A) (e : DWORD) (s : Sys State) : A * Sys State :=
  (a, mkSys (lib_state s) e).

Definition ok {A} (a : A) (st : State) (s : Sys State) : A * Sys State :=
  (a, mkSys st (last_error s)).

(** Modelled from the spec: the library's storage open, which is
    missing; it "attempts to open an archive rooted at path" and fails
    with a failure code on a nonexistent path. *)
Definition ref_CascOpenStorage (path : string) (localeMask : DWORD)
    (handle : HANDLE) (s : Sys State) : (bool * HANDLE) * Sys State :=
  let st := lib_state s in
  match find_archive path (disk st) with
  | None => fail (false, nullptr) ERROR_FILE_NOT_FOUND s
  | Some a =>
      ok (true, fresh st)
        (mkState (disk st) ((fresh st, a) :: storages st) (files st)
           (fresh st + 1)) s
  end.

(** Modelled from the spec: the library's storage close, which is
    missing; closing what is not an open storage is the "best-effort
    close" that sets a code of its own. *)
Definition ref_CascCloseStorage (handle : HANDLE) (s : Sys State)
    : bool * Sys State :=
  let st := lib_state s in
  match lookup handle (storages st) with
  | None => fail false ERROR_INVALID_HANDLE s
  | Some _ =>
      ok true
        (mkState (disk st) (remove handle (storages st)) (files st)
           (fresh st)) s
  end.

(** Modelled from the spec: the library's storage-info query, which is
    missing; it fills a fixed-size record and can fail. *)
Definition ref_CascGetStorageInfo (T : InfoType) (handle : HANDLE)
    (c : CASC_STORAGE_INFO_CLASS) (value : info_value T) (size needed : Z)
    (s : Sys State) : (bool * info_value T * Z) * Sys State :=
  match lookup handle (storages (lib_state s)) with
  | None => fail (false, value, needed) ERROR_INVALID_HANDLE s
  | Some a =>
      if size <? sizeof T
      then fail (false, value, sizeof T) ERROR_INSUFFICIENT_BUFFER s
      else
        match c, T return info_value T ->
                          (bool * info_value T * Z) * Sys State with
        | CascStorageInstalledLocales, T_DWORD =>
            fun _ => ((true, a_locales a, 4), s)
        | CascStorageProduct, T_CASC_STORAGE_PRODUCT =>
            fun _ =>
              ((true, Build_CASC_STORAGE_PRODUCT (a_build a),
                sizeof_CASC_STORAGE_PRODUCT), s)
        | _, _ =>
            fun v => fail (false, v, needed) ERROR_INVALID_PARAMETER s
        end value
  end.

(** Modelled from the spec: the library's key lookup, which is missing;
    the result is non-null iff "an encryption key matching keyId is
    registered in the storage's key table". *)
Definition ref_CascFindEncryptionKey (handle : HANDLE) (key : ULONGLONG)
    (s : Sys State) : Z * Sys State :=
  match lookup handle (storages (lib_state s)) with
  | None => fail nullptr ERROR_INVALID_HANDLE s
  | Some a =>
      if has_key (a_keys a) key then (1, s)
      else fail nullptr ERROR_FILE_NOT_FOUND s
  end.

(** Modelled from the spec: the library's file open, which is missing;
    it resolves an entry by name or by file-data id and notes whether
    the request carries the zero-fill flag. *)
Definition ref_CascOpenFile (storage : HANDLE) (name : LPCSTR)
    (localeMask openFlags : DWORD) (handle : HANDLE) (s : Sys State)
    : (bool * HANDLE) * Sys State :=
  let st := lib_state s in
  match lookup storage (storages st) with
  | None => fail (false, nullptr) ERROR_INVALID_HANDLE s
  | Some a =>
      match find (names name) (a_entries a) with
      | None => fail (false, nullptr) ERROR_FILE_NOT_FOUND s
      | Some e =>
          let zerofill :=
            Z.land openFlags CASC_OVERCOME_ENCRYPTED
            =? CASC_OVERCOME_ENCRYPTED in
          ok (true, fresh st)
            (mkState (disk st) (storages st)
               ((fresh st, mkOpened e (a_keys a) zerofill 0) :: files st)
               (fresh st + 1)) s
      end
  end.

(** Modelled from the spec: the library's file close, which is
    missing. *)
Definition ref_CascCloseFile (handle : HANDLE) (s : Sys State)
    : bool * Sys State :=
  let st := lib_state s in
  match lookup handle (files st) with
  | None => fail false ERROR_INVALID_HANDLE s
  | Some _ =>
      ok true
        (mkState (disk st) (storages st) (remove handle (files st))
           (fresh st)) s
  end.

(** Modelled from the spec: the library's size query, which is missing;
    it "returns low 32 bits of size; writes high 32 bits to the output
    location if non-null". *)
Definition ref_CascGetFileSize (handle : HANDLE) (high : option DWORD)
    (s : Sys State) : (DWORD * option DWORD) * Sys State :=
  match lookup handle (files (lib_state s)) with
  | None => fail (CASC_INVALID_POS, high) ERROR_INVALID_HANDLE s
  | Some f =>
      let size := e_size (of_entry f) in
      ((to_DWORD size, option_map (fun _ => size / 2 ^ 32) high), s)
  end.

(** Modelled from the spec: the library's seek, which is missing.  The
    offset is the signed 64-bit value made of the two halves (the low
    half alone, sign-extended, under a null high pointer); it is added
    to the start of the file or to the cursor; a position that is not
    valid is reported as [CASC_INVALID_POS]; otherwise the cursor moves
    and the new position comes back, low half as the result and high
    half through the pointer when there is one. *)
Definition ref_CascSetFilePointer (handle : HANDLE) (lo : LONG)
    (hi : option LONG) (method : DWORD) (s : Sys State)
    : (DWORD * option LONG) * Sys State :=
  let st := lib_state s in
  match lookup handle (files st) with
  | None => fail (CASC_INVALID_POS, hi) ERROR_INVALID_HANDLE s
  | Some f =>
      let offset :=
        match hi with
        | Some h => to_LONG h * 2 ^ 32 + to_DWORD lo
        | None => to_LONG lo
        end in
      let base :=
        if method =? FILE_BEGIN then Some 0
        else if method =? FILE_CURRENT then Some (of_pos f)
        else None in
      match base with
      | None => fail (CASC_INVALID_POS, hi) ERROR_INVALID_PARAMETER s
      | Some b =>
          let pos := b + offset in
          if (pos <? 0) || (2 ^ 63 <=? pos)
          then fail (CASC_INVALID_POS, hi) ERROR_INVALID_PARAMETER s
          else
            ok (to_DWORD pos, option_map (fun _ => pos / 2 ^ 32) hi)
              (mkState (disk st) (storages st)
                 (update handle (set_pos f pos) (files st)) (fresh st)) s
      end
  end.

(** Modelled from the spec: the library's read, which is missing.  It
    "reads up to byteCount bytes", reports the bytes actually read and
    advances the cursor; a region that is encrypted under a key the
    storage lacks makes the read fail, unless the entry was opened with
    the zero-fill flag, in which case that region reads as zero bytes. *)
Definition ref_CascReadFile (handle : HANDLE) (bytes : DWORD)
    (bytesRead : option DWORD) (s : Sys State)
    : (bool * list BYTE * option DWORD) * Sys State :=
  let st := lib_state s in
  match lookup handle (files st) with
  | None => fail (false, [], bytesRead) ERROR_INVALID_HANDLE s
  | Some f =>
      let remaining := Z.max 0 (e_size (of_entry f) - of_pos f) in
      let n := Z.max 0 (Z.min bytes remaining) in
      let range := offsets (of_pos f) n in
      if existsb (locked f) range && negb (of_zerofill f)
      then fail (false, [], option_map (fun _ => 0) bytesRead)
             ERROR_FILE_ENCRYPTED s
      else
        ok (true,
            map (fun i => if locked f i then 0 else e_byte (of_entry f) i)
              range,
            option_map (fun _ => n) bytesRead)
          (mkState (disk st) (storages st)
             (update handle (set_pos f (of_pos f + n)) (files st))
             (fresh st)) s
  end.

#[export] Instance library : CascLib State := {|
  lib_CascOpenStorage := ref_CascOpenStorage;
  lib_CascCloseStorage := ref_CascCloseStorage;
  lib_CascGetStorageInfo := ref_CascGetStorageInfo;
  lib_CascFindEncryptionKey := ref_CascFindEncryptionKey;
  lib_CascOpenFile := ref_CascOpenFile;
  lib_CascCloseFile := ref_CascCloseFile;
  lib_CascGetFileSize := ref_CascGetFileSize;
  lib_CascSetFilePointer := ref_CascSetFilePointer;
  lib_CascReadFile := ref_CascReadFile
|}.

End Model.

End Ref.

#[global] Existing Instance Ref.library.

(** ** A sample installation

    One archive at [/wow] with a plain 100-byte entry, a 100-byte entry
    whose bytes 40..59 are encrypted under key 7 (which the storage does not
    hold), and an entry of exactly 4 GiB. *)
Module Sample.
Import Ref.

Definition plain : Entry :=
  mkEntry "plain.bin" 1 100 (fun i => i mod 256) [].

Definition sealed : Entry :=
  mkEntry "sealed.bin" 2 100 (fun i => 1 + i mod 255) [mkSpan 40 20 7].

Definition huge : Entry :=
  mkEntry "huge.bin" 3 (2 ^ 32) (fun _ => 0) [].

Definition archive : Archive :=
  mkArchive 31478 514 [3; 5] [plain; sealed; huge].

Definition installed : State :=
  mkState [("/wow", archive)] [] [] 16.

(** A fresh process: nothing open, last error clear, nothing printed. *)
Definition boot : Process State :=
  mkProcess (mkSys installed 0) [] [] [].

(** The process after the storage has been opened as handle 16. *)
Definition mounted : Process State :=
  mkProcess
    (mkSys (mkState [("/wow", archive)] [(16, archive)] [] 17) 0) [] [] [].

Definition storage : StorageHandle := mkStorageHandle 16.

(** The process after, in addition, entry [e] has been opened as handle 17
    and its cursor moved to [pos]. *)
Definition reading (e : Entry) (zerofill : bool) (pos : Z) : Process State :=
  mkProcess
    (mkSys (mkState [("/wow", archive)] [(16, archive)]
              [(17, mkOpened e (a_keys archive) zerofill pos)] 18) 0)
    [] [] [].

Definition file : FileHandle := mkFileHandle 17.

End Sample.

(** ** Vocabulary of the statements *)

Section Vocabulary.
Context `{hdr : CascHeader}.

(** The labels in the order of [defined_codes]. *)
Definition labels : list string :=
  [ "SUCCESS"; "FILE_CORRUPT"; "CAN_NOT_COMPLETE"; "HANDLE_EOF";
    "NO_MORE_FILES"; "BAD_FORMAT"; "INSUFFICIENT_BUFFER"; "ALREADY_EXISTS";
    "DISK_FULL"; "INVALID_PARAMETER"; "NOT_SUPPORTED"; "NOT_ENOUGH_MEMORY";
    "INVALID_HANDLE"; "ACCESS_DENIED"; "FILE_NOT_FOUND"; "FILE_ENCRYPTED" ].

(** First-match lookup in a table of cases, as a [switch] with distinct
    labels behaves. *)
Fixpoint first_case (table : list (DWORD * string)) (error : DWORD)
    : string :=
  match table with
  | [] => "UNKNOWN"
  | (c, l) :: table' => if error =? c then l else first_case table' error
  end.

(** A raw handle the deleters release: neither null nor the sentinel. *)
Definition releasable (handle : HANDLE) : bool :=
  negb (handle =? nullptr) && negb (handle =? INVALID_HANDLE_VALUE).

(** The open mode each overload of [OpenFile] starts from, and the flags it
    ends up passing. *)
Definition open_mode (name : LPCSTR) : DWORD :=
  match name with
  | c_str _ => CASC_OPEN_BY_NAME
  | CASC_FILE_DATA_ID _ => CASC_OPEN_BY_FILEID
  end.

Definition open_flags (name : LPCSTR) (zerofillEncryptedParts : bool)
  : DWORD :=
  if zerofillEncryptedParts
  then Z.lor (open_mode name) CASC_OVERCOME_ENCRYPTED
  else open_mode name.

(** The diagnostic an overload of [OpenFile] prints for a failure code. *)
Definition open_diagnostic (name : LPCSTR) (lastError : DWORD) : string :=
  match name with
  | c_str fileName =>
    ("Failed to open '" ++ fileName ++ "' in CASC storage: "
     ++ HumanReadableCASCError lastError ++ nl)%string
  | CASC_FILE_DATA_ID fileDataId =>
    ("Failed to open 'FileDataId " ++ format_u fileDataId
     ++ "' in CASC storage: " ++ HumanReadableCASCError lastError ++ nl)%string
  end.

(** The two overloads of [OpenFile], selected by the form of the name. *)
Definition OpenFile_by {L : Type} `{lib : CascLib L}
  (storage : StorageHandle) (name : LPCSTR) (localeMask : DWORD)
  (printErrors zerofillEncryptedParts : bool) : M L FileHandle :=
  match name with
  | c_str fileName =>
    OpenFile storage fileName localeMask printErrors zerofillEncryptedParts
  | CASC_FILE_DATA_ID fileDataId =>
    OpenFile_id storage fileDataId localeMask printErrors
      zerofillEncryptedParts
  end.

(** Bytes left between the cursor of an open entry and its end. *)
Definition remaining_bytes (f : Ref.Opened) : Z :=
  Z.max 0 (Ref.e_size (Ref.of_entry f) - Ref.of_pos f).

(** The library can deliver the offsets [a, b) of an open entry: either it
    was opened with zero-fill, or none of them is encrypted under a key the
    storage lacks. *)
Definition deliverable (f : Ref.Opened) (a b : Z) : Prop :=
  Ref.of_zerofill f = true \/ forall i, a <= i < b -> Ref.locked f i = false.

(** What a read of an open entry stores for offset [i]. *)
Definition delivered (f : Ref.Opened) (i : Z) : BYTE :=
  if Ref.locked f i then 0 else Ref.e_byte (Ref.of_entry f) i.

(** Open an entry, seek to [pos], read [n] bytes. *)
Definition read_at {L : Type} `{lib : CascLib L} (storage : StorageHandle)
  (name : LPCSTR) (localeMask : DWORD)
  (printErrors zerofillEncryptedParts : bool) (pos : LONGLONG) (n : DWORD)
  : M L (bool * list BYTE * option DWORD) :=
  file <- OpenFile_by storage name localeMask printErrors
          zerofillEncryptedParts ;;
  SetFilePointer file pos ;;
  ReadFile file n (Some 0).


(** From a fresh process: open the storage at [path], open the entry
    [fileName] in it without zero-fill, seek to [position], and read
    [bytes] bytes. *)
Definition seek_then_read {L : Type} `{lib : CascLib L} (path : string)
  (fileName : string) (position : LONGLONG) (bytes : DWORD)
  : M L (bool * list BYTE * option DWORD) :=
  storage <- OpenStorage path 0 ;;
  file <- OpenFile storage fileName 0 false false ;;
  SetFilePointer file position ;;
  ReadFile file bytes (Some 0).

(** The scope of a storage handle: open the storage at [path] and let the
    owning handle go out of scope at once. *)
Definition open_storage_then_destroy {L : Type} `{lib : CascLib L}
  (path : string) (localeMask : DWORD) : M L unit :=
  storage <- OpenStorage path localeMask ;;
  StorageHandle_destroy storage.

(** The scope of a file handle, for either overload of [OpenFile]. *)
Definition open_file_then_destroy {L : Type} `{lib : CascLib L}
  (storage : StorageHandle) (name : LPCSTR) (localeMask : DWORD)
  (printErrors zerofillEncryptedParts : bool) : M L unit :=
  file <- OpenFile_by storage name localeMask printErrors
            zerofillEncryptedParts ;;
  FileHandle_destroy file.

(** The line [OpenStorage] prints when the library opened the storage. *)
Definition opened_line (path : string) : string :=
  ("Opened casc storage '" ++ path ++ "'" ++ nl)%string.

(** The line [OpenStorage] prints for a failure code. *)
Definition open_error_line (path : string) (lastError : DWORD) : string :=
  ("Error opening casc storage '" ++ path ++ "': "
   ++ HumanReadableCASCError lastError ++ nl)%string.

(** The number a string of decimal digits denotes, if it is one. *)
Definition decimal_value (digits : string) : option Z :=
  option_map (fun u => Z.of_N (N.of_uint u)) (NilZero.uint_of_string digits).

(** [shown] is how a diagnostic of [OpenFile] names the file asked for: the
    file name itself, or the words [FileDataId] and the id in decimal. *)
Definition names_request (name : LPCSTR) (shown : string) : Prop :=
  match name with
  | c_str fileName => shown = fileName
  | CASC_FILE_DATA_ID fileDataId =>
      exists digits,
        shown = ("FileDataId " ++ digits)%string /\
        (0 <= fileDataId -> decimal_value digits = Some fileDataId)
  end.

End Vocabulary.

(** * Properties *)

(** ** Error decoding *)

Section DecodingFacts.
Context `{hdr : CascHeader}.

Lemma HumanReadableCASCError_first_case error :
  HumanReadableCASCError error
  = first_case (combine defined_codes labels) error.
Proof. reflexivity. Qed.

Lemma first_case_default table error :
  ~ In error (map fst table) -> first_case table error = "UNKNOWN".
Proof.
  induction table as [|[c l] table IH]; simpl; intros Hn; [reflexivity|].
  destruct (Z.eqb_spec error c) as [->|_].
  - exfalso. apply Hn. now left.
  - apply IH. intros Hin. apply Hn. now right.
Qed.

Lemma first_case_hit table :
  NoDup (map fst table) ->
  map (fun cl => first_case table (fst cl)) table = map snd table.
Proof.
  induction table as [|[c l] table IH]; simpl; intros Hnd; [reflexivity|].
  inversion Hnd as [|? ? Hnotin Hnd']; subst.
  rewrite Z.eqb_refl. f_equal.
  rewrite <- (IH Hnd'). apply map_ext_in.
  intros [c' l'] Hin. simpl.
  destruct (Z.eqb_spec c' c) as [->|_]; [|reflexivity].
  exfalso. apply Hnotin. apply in_map_iff. now exists (c, l').
Qed.

Lemma labels_of_defined_codes :
  NoDup defined_codes ->
  map HumanReadableCASCError defined_codes = labels.
Proof.
  intros Hnd.
  assert (Hfst : map fst (combine defined_codes labels) = defined_codes)
    by reflexivity.
  assert (Hsnd : map snd (combine defined_codes labels) = labels)
    by reflexivity.
  rewrite <- Hsnd, <- first_case_hit by (rewrite Hfst; exact Hnd).
  rewrite <- Hfst at 1. rewrite map_map. reflexivity.
Qed.

Lemma unknown_outside_defined_codes error :
  ~ In error defined_codes -> HumanReadableCASCError error = "UNKNOWN".
Proof.
  intros Hn. rewrite HumanReadableCASCError_first_case.
  apply first_case_default. exact Hn.
Qed.

Lemma outside_defined_codes error :
  Forall (fun c => 0 <= c < 2 ^ 16) defined_codes ->
  error < 0 \/ 2 ^ 16 <= error -> ~ In error defined_codes.
Proof.
  intros Hall Hout Hin.
  rewrite Forall_forall in Hall. specialize (Hall _ Hin). lia.
Qed.

End DecodingFacts.

(** C2, as the code has it.  For a header whose sixteen status codes are
    pairwise distinct, with success being 0 and every code below 2^16:
    each defined code is decoded to its own label; every input that is not
    a defined code is decoded to UNKNOWN, and so are every negative input,
    every negative 32-bit integer converted to [DWORD], and the largest
    signed and unsigned 32-bit inputs; input zero is the success code and is
    decoded to SUCCESS. *)
Theorem HumanReadableCASCError_total `{hdr : CascHeader} (Hok : codes_ok) :
  map HumanReadableCASCError defined_codes = labels /\
  (forall error, ~ In error defined_codes ->
                 HumanReadableCASCError error = "UNKNOWN") /\
  (forall error, error < 0 -> HumanReadableCASCError error = "UNKNOWN") /\
  (forall error, - 2 ^ 31 <= error < 0 ->
                 HumanReadableCASCError (to_DWORD error) = "UNKNOWN") /\
  HumanReadableCASCError (2 ^ 31 - 1) = "UNKNOWN" /\
  HumanReadableCASCError (2 ^ 32 - 1) = "UNKNOWN" /\
  HumanReadableCASCError 0 = "SUCCESS".
Proof.
  destruct Hok as (Hnd & Hzero & Hsmall).
  assert (Hout : forall error, error < 0 \/ 2 ^ 16 <= error ->
                               HumanReadableCASCError error = "UNKNOWN").
  { intros error Herr. apply unknown_outside_defined_codes.
    apply outside_defined_codes; [exact Hsmall|exact Herr]. }
  split; [exact (labels_of_defined_codes Hnd)|].
  split; [exact unknown_outside_defined_codes|].
  split; [intros error Hneg; apply Hout; now left|].
  split.
  - intros error Hneg. apply Hout. right. unfold to_DWORD.
    replace error with ((error + 2 ^ 32) + (-1) * 2 ^ 32) by lia.
    rewrite Z_mod_plus_full. rewrite Z.mod_small; lia.
  - split; [apply Hout; right; lia|].
    split; [apply Hout; right; lia|].
    unfold HumanReadableCASCError. rewrite Hzero. reflexivity.
Qed.

Lemma posix_codes_ok : @codes_ok posix_header.
Proof.
  unfold codes_ok. split; [|split; [reflexivity|]].
  - repeat (constructor; [simpl; intuition discriminate|]). constructor.
  - repeat (constructor; [simpl; lia|]). constructor.
Qed.

Lemma windows_codes_ok : @codes_ok windows_header.
Proof.
  unfold codes_ok. split; [|split; [reflexivity|]].
  - repeat (constructor; [simpl; intuition discriminate|]). constructor.
  - repeat (constructor; [simpl; lia|]). constructor.
Qed.

(** The decoding theorem at the header of a POSIX host. *)
Lemma HumanReadableCASCError_total_witness :
  @codes_ok posix_header /\
  map (@HumanReadableCASCError posix_header) (@defined_codes posix_header)
  = labels /\
  @HumanReadableCASCError posix_header (-1) = "UNKNOWN" /\
  @HumanReadableCASCError posix_header 0 = "SUCCESS".
Proof.
  split; [exact posix_codes_ok|].
  destruct (@HumanReadableCASCError_total posix_header posix_codes_ok)
    as (Hl & _ & Hneg & _ & _ & _ & Hz).
  split; [exact Hl|]. split; [apply Hneg; lia|exact Hz].
Defined.

(** C2 as stated fails at input zero: zero is the success code, and its
    label is SUCCESS, not UNKNOWN, on either host. *)
Lemma HumanReadableCASCError_zero_not_UNKNOWN :
  @HumanReadableCASCError posix_header 0 = "SUCCESS" /\
  @HumanReadableCASCError windows_header 0 = "SUCCESS" /\
  @HumanReadableCASCError posix_header 0 <> "UNKNOWN" /\
  @HumanReadableCASCError windows_header 0 <> "UNKNOWN".
Proof. repeat split; try reflexivity; vm_compute; discriminate. Qed.

(** ** The sample installation *)

(** The sample states are the ones the file's own functions reach: opening
    the storage takes the library from [boot] to [mounted], and opening an
    entry there takes it to [reading] that entry at offset 0. *)
Lemma sample_states_reached :
  fst (@OpenStorage posix_header _ (@Ref.library posix_header) "/wow" 0
         Sample.boot) = Sample.storage /\
  sys (snd (@OpenStorage posix_header _ (@Ref.library posix_header) "/wow" 0
              Sample.boot)) = sys Sample.mounted /\
  (forall zerofill,
     fst (@OpenFile posix_header _ (@Ref.library posix_header) Sample.storage
            "plain.bin" 0 false zerofill Sample.mounted) = Sample.file /\
     sys (snd (@OpenFile posix_header _ (@Ref.library posix_header)
                 Sample.storage "plain.bin" 0 false zerofill Sample.mounted))
     = sys (Sample.reading Sample.plain zerofill 0)) /\
  (forall zerofill,
     sys (snd (@OpenFile posix_header _ (@Ref.library posix_header)
                 Sample.storage "sealed.bin" 0 false zerofill Sample.mounted))
     = sys (Sample.reading Sample.sealed zerofill 0)) /\
  (forall zerofill,
     sys (snd (@OpenFile_id posix_header _ (@Ref.library posix_header)
                 Sample.storage 3 0 false zerofill Sample.mounted))
     = sys (Sample.reading Sample.huge zerofill 0)).
Proof.
  split; [reflexivity|]. split; [reflexivity|].
  repeat split; destruct zerofill; reflexivity.
Qed.

(** ** Release of handles *)

Section ReleaseFacts.
Context `{hdr : CascHeader} {L : Type} `{lib : CascLib L}.

Lemma invoke_calls {A} (c : Call) (op : Sys L -> A * Sys L) (p : Process L) :
  calls (snd (invoke c op p)) = calls p ++ [c].
Proof. unfold invoke. destruct (op (sys p)). reflexivity. Qed.

Lemma StorageDeleter_calls (handle : HANDLE) (p : Process L) :
  calls (snd (StorageDeleter handle p))
  = calls p ++ (if releasable handle then [CallCloseStorage handle] else []).
Proof.
  unfold StorageDeleter, releasable.
  destruct (negb (handle =? nullptr) && negb (handle =? INVALID_HANDLE_VALUE)).
  - unfold bind, CascCloseStorage, invoke, ret.
    destruct (lib_CascCloseStorage handle (sys p)). reflexivity.
  - unfold ret. simpl. now rewrite app_nil_r.
Qed.

Lemma FileDeleter_calls (handle : HANDLE) (p : Process L) :
  calls (snd (FileDeleter handle p))
  = calls p ++ (if releasable handle then [CallCloseFile handle] else []).
Proof.
  unfold FileDeleter, releasable.
  destruct (negb (handle =? nullptr) && negb (handle =? INVALID_HANDLE_VALUE)).
  - unfold bind, CascCloseFile, invoke, ret.
    destruct (lib_CascCloseFile handle (sys p)). reflexivity.
  - unfold ret. simpl. now rewrite app_nil_r.
Qed.

End ReleaseFacts.

(** C9.  Each deleter calls the library's close exactly when the raw handle
    is neither null nor the invalid-handle sentinel, and then once, on that
    handle; on null and on the sentinel the process is left as it was; and
    destroying an empty wrapper, as a failed open returns, changes nothing,
    so no close call is made. *)
Theorem deleters_skip_absent_handles `{hdr : CascHeader} {L : Type}
    `{lib : CascLib L} (p : Process L) :
  (forall handle,
     calls (snd (StorageDeleter handle p))
     = calls p ++ (if releasable handle then [CallCloseStorage handle] else [])) /\
  (forall handle,
     calls (snd (FileDeleter handle p))
     = calls p ++ (if releasable handle then [CallCloseFile handle] else [])) /\
  StorageDeleter nullptr p = (tt, p) /\
  StorageDeleter INVALID_HANDLE_VALUE p = (tt, p) /\
  FileDeleter nullptr p = (tt, p) /\
  FileDeleter INVALID_HANDLE_VALUE p = (tt, p) /\
  StorageHandle_destroy StorageHandle_empty p = (tt, p) /\
  FileHandle_destroy FileHandle_empty p = (tt, p).
Proof.
  split; [intros handle; apply StorageDeleter_calls|].
  split; [intros handle; apply FileDeleter_calls|].
  repeat split.
Qed.

(** ** Opening, in terms of the library's answer *)

Section OpenFacts.
Context `{hdr : CascHeader} {L : Type} `{lib : CascLib L}.

(** [OpenStorage] in terms of the library's answer. *)
Lemma OpenStorage_run (path : string) (localeMask : DWORD) (p : Process L) :
  OpenStorage path localeMask p
  = let '((opened, handle), s) :=
      lib_CascOpenStorage path localeMask nullptr (sys p) in
    if opened
    then (mkStorageHandle handle,
          mkProcess s (stdout p ++ [opened_line path]) (stderr p)
            (calls p ++ [CallOpenStorage path localeMask]))
    else (StorageHandle_empty,
          mkProcess
            (mkSys (lib_state (snd (lib_CascCloseStorage handle s)))
               (last_error s))
            (stdout p ++ [open_error_line path (last_error s)]) (stderr p)
            (calls p ++ [CallOpenStorage path localeMask; CallGetLastError;
                         CallCloseStorage handle;
                         CallSetLastError (last_error s)])).
Proof.
  unfold OpenStorage, bind, CascOpenStorage, invoke.
  destruct (lib_CascOpenStorage path localeMask nullptr (sys p))
    as [[opened handle] s].
  destruct opened; cbn [negb]; [reflexivity|].
  unfold GetLastError, printf, CascCloseStorage, SetLastError, invoke, ret.
  cbn [sys stdout stderr calls].
  destruct (lib_CascCloseStorage handle s) as [closed s'].
  cbn [sys stdout stderr calls snd lib_state].
  unfold open_error_line. now rewrite <- !app_assoc.
Qed.

(** [OpenFile], either overload, in terms of the library's answer. *)
Lemma OpenFile_by_run (storage : StorageHandle) (name : LPCSTR)
    (localeMask : DWORD) (printErrors zerofill : bool) (p : Process L) :
  OpenFile_by storage name localeMask printErrors zerofill p
  = let '((opened, handle), s) :=
      lib_CascOpenFile (storage_get storage) name localeMask
        (open_flags name zerofill) nullptr (sys p) in
    if opened
    then (mkFileHandle handle,
          mkProcess s (stdout p) (stderr p)
            (calls p ++ [CallOpenFile (storage_get storage) name localeMask
                           (open_flags name zerofill)]))
    else (FileHandle_empty,
          mkProcess
            (mkSys (lib_state (snd (lib_CascCloseFile handle s)))
               (last_error s))
            (stdout p)
            (stderr p ++ (if printErrors
                          then [open_diagnostic name (last_error s)]
                          else []))
            (calls p ++ [CallOpenFile (storage_get storage) name localeMask
                           (open_flags name zerofill);
                         CallGetLastError; CallCloseFile handle;
                         CallSetLastError (last_error s)])).
Proof.
  destruct name as [fileName|fileDataId];
    unfold OpenFile_by, OpenFile, OpenFile_id, open_flags, open_mode, bind,
      CascOpenFile, invoke;
    destruct zerofill;
    match goal with
    | |- context [lib_CascOpenFile ?h ?nm ?m ?fl ?h0 ?st] =>
        destruct (lib_CascOpenFile h nm m fl h0 st) as [[opened handle] s]
    end;
    destruct opened; cbn [negb]; try reflexivity;
    unfold GetLastError, fprintf_stderr, CascCloseFile, SetLastError, invoke,
      ret;
    destruct printErrors; cbn [sys stdout stderr calls];
    destruct (lib_CascCloseFile handle s) as [closed s'];
    cbn [sys stdout stderr calls snd lib_state open_diagnostic];
    rewrite <- ?app_assoc, ?app_nil_r; reflexivity.
Qed.

End OpenFacts.

Lemma format_u_decimal (d : DWORD) :
  0 <= d -> decimal_value (format_u d) = Some d.
Proof.
  intros Hd. unfold decimal_value, format_u.
  rewrite NilZero.usu.
  - cbn [option_map]. now rewrite DecimalN.Unsigned.of_to, Z2N.id.
  - destruct (Z.to_N d); cbn [N.to_uint];
      [discriminate|apply Unsigned.to_uint_nonnil].
Qed.

Lemma open_diagnostic_names_request `{hdr : CascHeader} (name : LPCSTR)
    (lastError : DWORD) :
  exists shown,
    names_request name shown /\
    open_diagnostic name lastError
    = ("Failed to open '" ++ shown ++ "' in CASC storage: "
       ++ HumanReadableCASCError lastError ++ nl)%string.
Proof.
  destruct name as [fileName|fileDataId]; cbn [names_request open_diagnostic].
  - exists fileName. split; reflexivity.
  - exists ("FileDataId " ++ format_u fileDataId)%string. split.
    + exists (format_u fileDataId). split; [reflexivity|].
      apply format_u_decimal.
    + reflexivity.
Qed.

(** ** Failed opens *)

(** C1.  When the library's storage open fails, [OpenStorage] returns the
    empty handle and the last-error cell ends up holding the code read right
    after the failed open, whatever the close of the partial handle stored
    there in between; the calls made are the open, the read of the code, the
    close and the write of the code back, and one line naming the path and
    the decoded code goes to standard output. *)
Theorem OpenStorage_failure_restores_open_error `{hdr : CascHeader}
    {L : Type} `{lib : CascLib L}
    (path : string) (localeMask : DWORD) (p : Process L)
    (partial : HANDLE) (s : Sys L) :
  lib_CascOpenStorage path localeMask nullptr (sys p) = ((false, partial), s) ->
  let r := OpenStorage path localeMask p in
  fst r = StorageHandle_empty /\
  last_error (sys (snd r)) = last_error s /\
  lib_state (sys (snd r)) = lib_state (snd (lib_CascCloseStorage partial s)) /\
  calls (snd r)
  = calls p ++ [CallOpenStorage path localeMask; CallGetLastError;
                CallCloseStorage partial; CallSetLastError (last_error s)] /\
  stdout (snd r)
  = stdout p ++ [("Error opening casc storage '" ++ path ++ "': "
                  ++ HumanReadableCASCError (last_error s) ++ nl)%string] /\
  stderr (snd r) = stderr p.
Proof.
  intros Hopen r. subst r.
  unfold OpenStorage, bind, CascOpenStorage, invoke. rewrite Hopen. simpl.
  unfold CascCloseStorage, invoke. simpl.
  destruct (lib_CascCloseStorage partial s) as [closed s'] eqn:Hclose. simpl.
  repeat split. repeat rewrite <- app_assoc. reflexivity.
Qed.

(** The storage open of the sample installation at a path that does not
    exist: the open leaves code 2, the close of the null handle leaves
    code 9, and [OpenStorage] reports code 2. *)
Lemma OpenStorage_failure_witness :
  last_error (snd (@lib_CascCloseStorage _ (@Ref.library posix_header) nullptr
                     (snd (@lib_CascOpenStorage _ (@Ref.library posix_header)
                             "/nowhere" 0 nullptr (sys Sample.boot))))) = 9 /\
  fst (@OpenStorage posix_header _ (@Ref.library posix_header)
         "/nowhere" 0 Sample.boot) = StorageHandle_empty /\
  last_error (sys (snd (@OpenStorage posix_header _ (@Ref.library posix_header)
                          "/nowhere" 0 Sample.boot))) = 2.
Proof.
  split; [reflexivity|].
  destruct (@OpenStorage_failure_restores_open_error posix_header _
              (@Ref.library posix_header) "/nowhere" 0 Sample.boot nullptr
              (mkSys Sample.installed 2) eq_refl) as (Hh & He & _).
  split; [exact Hh|exact He].
Defined.

(** C3.  For either overload of [OpenFile], when the library's file open
    fails: the empty handle is returned; the last-error cell ends up holding
    the code read right after the failed open, the close of the partial
    handle notwithstanding; and standard error receives the diagnostic
    exactly when [printErrors] is set.  The diagnostic is the line
    [Failed to open '<shown>' in CASC storage: <label>] where [<shown>] is
    the requested file name, or [FileDataId] followed by digits that read
    back as the requested id, and [<label>] decodes the captured code. *)
Theorem OpenFile_failure_restores_open_error `{hdr : CascHeader}
    {L : Type} `{lib : CascLib L}
    (storage : StorageHandle) (name : LPCSTR) (localeMask : DWORD)
    (printErrors zerofillEncryptedParts : bool) (p : Process L)
    (partial : HANDLE) (s : Sys L) :
  lib_CascOpenFile (storage_get storage) name localeMask
    (open_flags name zerofillEncryptedParts) nullptr (sys p)
  = ((false, partial), s) ->
  let r := OpenFile_by storage name localeMask printErrors
             zerofillEncryptedParts p in
  fst r = FileHandle_empty /\
  last_error (sys (snd r)) = last_error s /\
  lib_state (sys (snd r)) = lib_state (snd (lib_CascCloseFile partial s)) /\
  calls (snd r)
  = calls p ++ [CallOpenFile (storage_get storage) name localeMask
                  (open_flags name zerofillEncryptedParts);
                CallGetLastError; CallCloseFile partial;
                CallSetLastError (last_error s)] /\
  stderr (snd r)
  = stderr p ++ (if printErrors
                 then [open_diagnostic name (last_error s)] else []) /\
  stdout (snd r) = stdout p /\
  (exists shown,
     names_request name shown /\
     stderr (snd r)
     = stderr p ++ (if printErrors
                    then [("Failed to open '" ++ shown
                           ++ "' in CASC storage: "
                           ++ HumanReadableCASCError (last_error s)
                           ++ nl)%string]
                    else [])).
Proof.
  intros Hopen r. subst r.
  rewrite OpenFile_by_run, Hopen. cbn [fst snd sys stdout stderr calls].
  cbn [last_error lib_state].
  repeat (split; [reflexivity|]).
  destruct (open_diagnostic_names_request name (last_error s))
    as (shown & Hshown & Hline).
  exists shown. split; [exact Hshown|]. now rewrite Hline.
Qed.

(** Both overloads on the mounted sample storage, asked with diagnostics on
    for an entry that does not exist, by the name [absent.bin] and by the id
    77; and the id overload once more with diagnostics off. *)
Lemma OpenFile_failure_witness :
  (fst (@OpenFile posix_header _ (@Ref.library posix_header) Sample.storage
          "absent.bin" 0 true false Sample.mounted) = FileHandle_empty /\
   last_error (sys (snd (@OpenFile posix_header _ (@Ref.library posix_header)
          Sample.storage "absent.bin" 0 true false Sample.mounted))) = 2 /\
   stderr (snd (@OpenFile posix_header _ (@Ref.library posix_header)
          Sample.storage "absent.bin" 0 true false Sample.mounted))
   = [("Failed to open 'absent.bin' in CASC storage: FILE_NOT_FOUND"
       ++ nl)%string]) /\
  (fst (@OpenFile_id posix_header _ (@Ref.library posix_header) Sample.storage
          77 0 true true Sample.mounted) = FileHandle_empty /\
   last_error (sys (snd (@OpenFile_id posix_header _ (@Ref.library posix_header)
          Sample.storage 77 0 true true Sample.mounted))) = 2 /\
   stderr (snd (@OpenFile_id posix_header _ (@Ref.library posix_header)
          Sample.storage 77 0 true true Sample.mounted))
   = [("Failed to open 'FileDataId 77' in CASC storage: FILE_NOT_FOUND"
       ++ nl)%string]) /\
  stderr (snd (@OpenFile_id posix_header _ (@Ref.library posix_header)
          Sample.storage 77 0 false true Sample.mounted)) = [].
Proof.
  split; [|split].
  - destruct (@OpenFile_failure_restores_open_error posix_header _
                (@Ref.library posix_header) Sample.storage
                (c_str "absent.bin") 0 true false Sample.mounted nullptr
                (mkSys (lib_state (sys Sample.mounted)) 2) eq_refl)
      as (Hh & He & _ & _ & Herr & _).
    split; [exact Hh|]. split; [exact He|exact Herr].
  - destruct (@OpenFile_failure_restores_open_error posix_header _
                (@Ref.library posix_header) Sample.storage
                (CASC_FILE_DATA_ID 77) 0 true true Sample.mounted nullptr
                (mkSys (lib_state (sys Sample.mounted)) 2) eq_refl)
      as (Hh & He & _ & _ & Herr & _).
    split; [exact Hh|]. split; [exact He|exact Herr].
  - destruct (@OpenFile_failure_restores_open_error posix_header _
                (@Ref.library posix_header) Sample.storage
                (CASC_FILE_DATA_ID 77) 0 false true Sample.mounted nullptr
                (mkSys (lib_state (sys Sample.mounted)) 2) eq_refl)
      as (_ & _ & _ & _ & Herr & _).
    exact Herr.
Defined.

(** ** Metadata queries *)

(** C6.  When the library's storage-info query fails, [GetBuildNumber] and
    [GetInstalledLocalesMask] return 0 and add nothing of their own: the
    process afterwards is the one the failed query left, with both console
    streams as before and the query as the only call made (in particular no
    write to the last-error cell by this layer). *)
Theorem metadata_queries_fail_silently `{hdr : CascHeader} {L : Type}
    `{lib : CascLib L} (storage : StorageHandle) (p : Process L) :
  (forall product product' needed s,
     lib_CascGetStorageInfo T_CASC_STORAGE_PRODUCT (storage_get storage)
       CascStorageProduct product sizeof_CASC_STORAGE_PRODUCT 0 (sys p)
     = ((false, product', needed), s) ->
     GetBuildNumber product storage p
     = (0, mkProcess s (stdout p) (stderr p)
             (calls p ++ [CallGetStorageInfo (storage_get storage)
                            CascStorageProduct sizeof_CASC_STORAGE_PRODUCT]))) /\
  (forall locales locales' needed s,
     lib_CascGetStorageInfo T_DWORD (storage_get storage)
       CascStorageInstalledLocales locales 4 0 (sys p)
     = ((false, locales', needed), s) ->
     GetInstalledLocalesMask locales storage p
     = (0, mkProcess s (stdout p) (stderr p)
             (calls p ++ [CallGetStorageInfo (storage_get storage)
                            CascStorageInstalledLocales 4]))).
Proof.
  split.
  - intros product product' needed s Hquery.
    unfold GetBuildNumber, GetStorageInfo, bind, CascGetStorageInfo, invoke.
    simpl sizeof. rewrite Hquery. reflexivity.
  - intros locales locales' needed s Hquery.
    unfold GetInstalledLocalesMask, GetStorageInfo, bind, CascGetStorageInfo,
      invoke.
    simpl sizeof. rewrite Hquery. reflexivity.
Qed.

(** Both queries on the sample installation before any storage is open:
    handle 16 is not a storage, the query fails leaving code 9, and the
    answer is 0 although the locals held 99 and 77 on entry. *)
Lemma metadata_queries_fail_silently_witness :
  @GetBuildNumber posix_header _ (@Ref.library posix_header)
    (Build_CASC_STORAGE_PRODUCT 99) Sample.storage Sample.boot
  = (0, mkProcess (mkSys Sample.installed 9) [] []
          [CallGetStorageInfo 16 CascStorageProduct 16]) /\
  @GetInstalledLocalesMask posix_header _ (@Ref.library posix_header)
    77 Sample.storage Sample.boot
  = (0, mkProcess (mkSys Sample.installed 9) [] []
          [CallGetStorageInfo 16 CascStorageInstalledLocales 4]).
Proof.
  destruct (@metadata_queries_fail_silently posix_header _
              (@Ref.library posix_header) Sample.storage Sample.boot)
    as (Hbuild & Hlocales).
  split.
  - exact (Hbuild (Build_CASC_STORAGE_PRODUCT 99)
             (Build_CASC_STORAGE_PRODUCT 99) 0 (mkSys Sample.installed 9)
             eq_refl).
  - exact (Hlocales 77 77 0 (mkSys Sample.installed 9) eq_refl).
Defined.

(** ** Integer conversions and the object representation *)

Lemma to_LONG_id z : is_LONG z -> to_LONG z = z.
Proof.
  unfold is_LONG, to_LONG. intros Hz.
  rewrite Z.mod_small by lia. lia.
Qed.

Lemma to_LONG_mod z : to_LONG (z mod 2 ^ 32) = to_LONG z.
Proof. unfold to_LONG. now rewrite Zplus_mod_idemp_l. Qed.

Lemma to_DWORD_to_LONG z : to_DWORD (to_LONG z) = z mod 2 ^ 32.
Proof.
  unfold to_DWORD, to_LONG. rewrite Zminus_mod_idemp_l.
  f_equal. lia.
Qed.

Lemma to_DWORD_range z : is_DWORD (to_DWORD z).
Proof. unfold is_DWORD, to_DWORD. apply Z.mod_pos_bound. lia. Qed.

Lemma to_LONG_range z : is_LONG (to_LONG z).
Proof.
  unfold is_LONG, to_LONG.
  pose proof (Z.mod_pos_bound (z + 2 ^ 31) (2 ^ 32)). lia.
Qed.

Lemma high_half_range z : is_LONGLONG z -> is_LONG (z / 2 ^ 32).
Proof.
  unfold is_LONGLONG, is_LONG. intros Hz.
  pose proof (Z.div_mod z (2 ^ 32)).
  pose proof (Z.mod_pos_bound z (2 ^ 32)). lia.
Qed.

Lemma halves_rebuild z : z / 2 ^ 32 * 2 ^ 32 + z mod 2 ^ 32 = z.
Proof. pose proof (Z.div_mod z (2 ^ 32)). lia. Qed.

Lemma le_value_le_bytes n z :
  le_value (le_bytes n z) = z mod 256 ^ Z.of_nat n.
Proof.
  revert z. induction n as [|n IH]; intros z.
  - simpl. now rewrite Z.mod_1_r.
  - cbn [le_bytes le_value]. rewrite IH.
    rewrite Nat2Z.inj_succ, Z.pow_succ_r by lia.
    rewrite Z.rem_mul_r by lia. reflexivity.
Qed.

(** On a little-endian host the copy leaves the low half of the position in
    [parts[0]] and the high half in [parts[1]]. *)
Lemma memcpy_parts_halves position :
  memcpy_parts position = (to_LONG position, to_LONG (position / 2 ^ 32)).
Proof.
  unfold memcpy_parts, bytes_of_LONGLONG, LONG_of_bytes.
  change (firstn 4 (firstn 8 (le_bytes 8 position)))
    with (le_bytes 4 position).
  change (firstn 4 (skipn 4 (firstn 8 (le_bytes 8 position))))
    with (le_bytes 4 (position / 256 / 256 / 256 / 256)).
  rewrite !le_value_le_bytes.
  change (256 ^ Z.of_nat 4) with (2 ^ 32). rewrite !to_LONG_mod.
  rewrite !Z.div_div by lia. reflexivity.
Qed.

(** ** Seeking *)

(** C5.  For a position that is a signed 64-bit integer, [SetFilePointer]
    makes one library seek, from the start of the file ([FILE_BEGIN]), whose
    primary argument is the low 32-bit half of the position and whose
    pointer argument holds the high half; the two halves are 32-bit values
    that rebuild the position; and it returns false exactly when the value
    the library returns is [CASC_INVALID_POS]. *)
Theorem SetFilePointer_seeks_by_halves `{hdr : CascHeader} {L : Type}
    `{lib : CascLib L} (file : FileHandle) (position : LONGLONG)
    (p : Process L) :
  is_LONGLONG position ->
  let lo := to_LONG position in
  let hi := position / 2 ^ 32 in
  let sought :=
    lib_CascSetFilePointer (file_get file) lo (Some hi) FILE_BEGIN (sys p) in
  let r := SetFilePointer file position p in
  is_LONG lo /\ is_LONG hi /\ hi * 2 ^ 32 + to_DWORD lo = position /\
  calls (snd r)
  = calls p ++ [CallSetFilePointer (file_get file) lo (Some hi) FILE_BEGIN] /\
  sys (snd r) = snd sought /\
  (fst r = false <-> to_DWORD (fst (fst sought)) = CASC_INVALID_POS).
Proof.
  intros Hpos lo hi sought r. subst lo hi sought r.
  assert (Hhi : is_LONG (position / 2 ^ 32))
    by (apply high_half_range; exact Hpos).
  split; [apply to_LONG_range|]. split; [exact Hhi|].
  split; [rewrite to_DWORD_to_LONG; apply halves_rebuild|].
  unfold SetFilePointer, bind, CascSetFilePointer, invoke.
  rewrite memcpy_parts_halves. cbn [fst snd].
  rewrite (to_LONG_id (position / 2 ^ 32) Hhi).
  destruct (lib_CascSetFilePointer (file_get file) (to_LONG position)
              (Some (position / 2 ^ 32)) FILE_BEGIN (sys p))
    as [[res hi'] s'].
  cbn [fst snd ret calls sys].
  split; [reflexivity|]. split; [reflexivity|].
  rewrite negb_false_iff. apply Z.eqb_eq.
Qed.

(** A seek of the 100-byte sample entry to offset 90, and one to the
    negative offset -8 whose halves are -8 and -1 and which the library
    reports invalid. *)
Lemma SetFilePointer_seeks_by_halves_witness :
  calls (snd (@SetFilePointer posix_header _ (@Ref.library posix_header)
                Sample.file 90 (Sample.reading Sample.plain false 0)))
  = [CallSetFilePointer 17 90 (Some 0) 0] /\
  calls (snd (@SetFilePointer posix_header _ (@Ref.library posix_header)
                Sample.file (-8) (Sample.reading Sample.plain false 0)))
  = [CallSetFilePointer 17 (-8) (Some (-1)) 0] /\
  fst (@SetFilePointer posix_header _ (@Ref.library posix_header)
         Sample.file (-8) (Sample.reading Sample.plain false 0)) = false.
Proof.
  assert (H90 : is_LONGLONG 90) by (unfold is_LONGLONG; lia).
  assert (H8 : is_LONGLONG (-8)) by (unfold is_LONGLONG; lia).
  destruct (@SetFilePointer_seeks_by_halves posix_header _
              (@Ref.library posix_header) Sample.file 90
              (Sample.reading Sample.plain false 0) H90)
    as (_ & _ & _ & Hc90 & _).
  destruct (@SetFilePointer_seeks_by_halves posix_header _
              (@Ref.library posix_header) Sample.file (-8)
              (Sample.reading Sample.plain false 0) H8)
    as (_ & _ & _ & Hc8 & _ & Hf8).
  split; [exact Hc90|]. split; [exact Hc8|].
  apply Hf8. reflexivity.
Defined.

(** ** The reference library: handle tables and the cursor *)

Section RefFacts.
Import Ref.
Context `{hdr : CascHeader}.

Lemma lookup_update {A} h (a b : A) l :
  lookup h l = Some a -> lookup h (update h b l) = Some b.
Proof.
  induction l as [|[k x] l IH]; simpl; [discriminate|].
  destruct (k =? h) eqn:Hk; simpl; rewrite Hk; auto.
Qed.

Lemma update_same {A} h (a : A) l :
  lookup h l = Some a -> update h a l = l.
Proof.
  induction l as [|[k x] l IH]; simpl; [reflexivity|].
  destruct (k =? h) eqn:Hk.
  - intros [= ->]. reflexivity.
  - intros Hl. now rewrite IH.
Qed.

Lemma state_eta (s : Sys State) :
  mkSys (mkState (disk (lib_state s)) (storages (lib_state s))
           (files (lib_state s)) (fresh (lib_state s))) (last_error s) = s.
Proof. destruct s as [[d st fs n] e]. reflexivity. Qed.

Lemma set_pos_same f : set_pos f (of_pos f) = f.
Proof. destruct f. reflexivity. Qed.

(** A seek by zero from the cursor reports the low half of the cursor and
    leaves the library as it was. *)
Lemma ref_seek_current_zero (Hflags : flags_ok) h f (s : Sys State) :
  lookup h (files (lib_state s)) = Some f ->
  0 <= of_pos f < 2 ^ 63 ->
  ref_CascSetFilePointer h 0 None FILE_CURRENT s
  = ((to_DWORD (of_pos f), None), s).
Proof.
  intros Hl Hpos. destruct Hflags as (_ & _ & _ & _ & _ & Hne & _).
  unfold ref_CascSetFilePointer. rewrite Hl.
  replace (FILE_CURRENT =? FILE_BEGIN) with false
    by (symmetry; apply Z.eqb_neq; congruence).
  rewrite Z.eqb_refl. change (to_LONG 0) with 0. rewrite Z.add_0_r.
  replace ((of_pos f <? 0) || (2 ^ 63 <=? of_pos f)) with false
    by (symmetry; apply orb_false_iff; split;
        [apply Z.ltb_ge|apply Z.leb_gt]; lia).
  unfold ok. cbn [option_map]. rewrite set_pos_same, (update_same _ _ _ Hl).
  now rewrite state_eta.
Qed.

(** A seek from the start to a 64-bit position given by its halves. *)
Lemma ref_seek_begin h f (s : Sys State) position :
  lookup h (files (lib_state s)) = Some f ->
  is_LONGLONG position ->
  ref_CascSetFilePointer h (to_LONG position) (Some (position / 2 ^ 32))
    FILE_BEGIN s
  = if position <? 0
    then ((CASC_INVALID_POS, Some (position / 2 ^ 32)),
          mkSys (lib_state s) ERROR_INVALID_PARAMETER)
    else ((to_DWORD position, Some (position / 2 ^ 32)),
          mkSys (mkState (disk (lib_state s)) (storages (lib_state s))
                   (update h (set_pos f position) (files (lib_state s)))
                   (fresh (lib_state s))) (last_error s)).
Proof.
  intros Hl Hpos. unfold ref_CascSetFilePointer. rewrite Hl.
  rewrite Z.eqb_refl.
  rewrite (to_LONG_id _ (high_half_range _ Hpos)), to_DWORD_to_LONG.
  rewrite halves_rebuild. cbn [Z.add].
  replace (2 ^ 63 <=? position) with false
    by (symmetry; apply Z.leb_gt; unfold is_LONGLONG in Hpos; lia).
  rewrite orb_false_r. destruct (position <? 0); reflexivity.
Qed.

(** [GetFilePointer] against the reference library. *)
Lemma GetFilePointer_ref (Hflags : flags_ok) (file : FileHandle)
    (p : Process State) f :
  lookup (file_get file) (files (lib_state (sys p))) = Some f ->
  0 <= of_pos f < 2 ^ 63 ->
  GetFilePointer file p
  = (of_pos f mod 2 ^ 32,
     mkProcess (sys p) (stdout p) (stderr p)
       (calls p ++ [CallSetFilePointer (file_get file) 0 None FILE_CURRENT])).
Proof.
  intros Hl Hpos.
  unfold GetFilePointer, bind, CascSetFilePointer, invoke.
  cbn [lib_CascSetFilePointer library].
  rewrite (ref_seek_current_zero Hflags _ _ _ Hl Hpos).
  cbn [fst snd ret]. unfold to_DWORD. now rewrite Zmod_mod.
Qed.

(** [SetFilePointer] against the reference library. *)
Lemma SetFilePointer_ref (Hflags : flags_ok) (file : FileHandle)
    (p : Process State) f position :
  lookup (file_get file) (files (lib_state (sys p))) = Some f ->
  is_LONGLONG position ->
  SetFilePointer file position p
  = if position <? 0
    then (false,
          mkProcess (mkSys (lib_state (sys p)) ERROR_INVALID_PARAMETER)
            (stdout p) (stderr p)
            (calls p ++ [CallSetFilePointer (file_get file)
                           (to_LONG position) (Some (position / 2 ^ 32))
                           FILE_BEGIN]))
    else (negb (position mod 2 ^ 32 =? 2 ^ 32 - 1),
          mkProcess
            (mkSys (mkState (disk (lib_state (sys p)))
                      (storages (lib_state (sys p)))
                      (update (file_get file) (set_pos f position)
                         (files (lib_state (sys p))))
                      (fresh (lib_state (sys p)))) (last_error (sys p)))
            (stdout p) (stderr p)
            (calls p ++ [CallSetFilePointer (file_get file)
                           (to_LONG position) (Some (position / 2 ^ 32))
                           FILE_BEGIN])).
Proof.
  intros Hl Hpos.
  destruct Hflags as (_ & _ & _ & _ & _ & _ & Hinv).
  unfold SetFilePointer, bind, CascSetFilePointer, invoke.
  rewrite memcpy_parts_halves. cbn [fst snd].
  rewrite (to_LONG_id _ (high_half_range _ Hpos)).
  cbn [lib_CascSetFilePointer library].
  rewrite (ref_seek_begin _ _ _ _ Hl Hpos).
  destruct (position <? 0); cbn [fst snd ret]; rewrite Hinv.
  - reflexivity.
  - unfold to_DWORD. now rewrite Zmod_mod.
Qed.

End RefFacts.

(** C10.  [GetFilePointer] makes one library seek with offset 0, a null
    high pointer and [FILE_CURRENT], and what it returns is a 32-bit value;
    against the reference library, with the cursor of the file at a valid
    position, that value is the cursor reduced modulo 2^32, so a cursor of
    2^32 or more is reported short by a multiple of 2^32. *)
Theorem GetFilePointer_reports_low_half `{hdr : CascHeader}
    (Hflags : flags_ok) :
  (forall (L : Type) (lib : CascLib L) (file : FileHandle) (p : Process L),
     calls (snd (GetFilePointer file p))
     = calls p ++ [CallSetFilePointer (file_get file) 0 None FILE_CURRENT] /\
     is_DWORD (fst (GetFilePointer file p))) /\
  (forall (file : FileHandle) (p : Process Ref.State) (f : Ref.Opened),
     Ref.lookup (file_get file) (Ref.files (lib_state (sys p))) = Some f ->
     0 <= Ref.of_pos f < 2 ^ 63 ->
     fst (GetFilePointer file p) = Ref.of_pos f mod 2 ^ 32 /\
     (2 ^ 32 <= Ref.of_pos f ->
      fst (GetFilePointer file p)
      = Ref.of_pos f - 2 ^ 32 * (Ref.of_pos f / 2 ^ 32) /\
      fst (GetFilePointer file p) < Ref.of_pos f)).
Proof.
  split.
  - intros L lib file p.
    unfold GetFilePointer, bind, CascSetFilePointer, invoke.
    destruct (lib_CascSetFilePointer (file_get file) 0 None FILE_CURRENT
                (sys p)) as [[res hi'] s'].
    cbn [fst snd ret calls]. split; [reflexivity|apply to_DWORD_range].
  - intros file p f Hl Hpos.
    rewrite (GetFilePointer_ref Hflags _ _ _ Hl Hpos). cbn [fst].
    split; [reflexivity|]. intros Hbig.
    pose proof (Z.div_mod (Ref.of_pos f) (2 ^ 32)).
    pose proof (Z.mod_pos_bound (Ref.of_pos f) (2 ^ 32)). lia.
Qed.

Lemma posix_flags_ok : @flags_ok posix_header.
Proof. unfold flags_ok, is_DWORD. simpl. repeat split; lia. Qed.

(** The 4 GiB sample entry with its cursor at 2^32 + 7: the position
    reported is 7. *)
Lemma GetFilePointer_reports_low_half_witness :
  @flags_ok posix_header /\
  fst (@GetFilePointer posix_header _ (@Ref.library posix_header) Sample.file
         (Sample.reading Sample.huge false (2 ^ 32 + 7))) = 7.
Proof.
  split; [exact posix_flags_ok|].
  destruct (@GetFilePointer_reports_low_half posix_header posix_flags_ok)
    as (_ & Hmodel).
  destruct (Hmodel Sample.file (Sample.reading Sample.huge false (2 ^ 32 + 7))
              (Ref.mkOpened Sample.huge [3; 5] false (2 ^ 32 + 7)) eq_refl)
    as (Hget & _).
  - simpl. lia.
  - exact Hget.
Defined.




(** ** Reading *)

Section RefReadFacts.
Import Ref.
Context `{hdr : CascHeader}.

Lemma offsets_length pos n : List.length (offsets pos n) = Z.to_nat n.
Proof. unfold offsets. now rewrite length_map, length_seq. Qed.

Lemma offsets_In pos n i : In i (offsets pos n) <-> pos <= i < pos + n.
Proof.
  unfold offsets. rewrite in_map_iff. split.
  - intros (k & <- & Hk). apply in_seq in Hk. lia.
  - intros Hi. exists (Z.to_nat (i - pos)). split; [lia|].
    apply in_seq. lia.
Qed.

Lemma existsb_locked_false f pos n :
  (forall i, pos <= i < pos + n -> locked f i = false) ->
  existsb (locked f) (offsets pos n) = false.
Proof.
  intros Hfree. destruct (existsb (locked f) (offsets pos n)) eqn:Hex;
    [|reflexivity].
  apply existsb_exists in Hex. destruct Hex as (i & Hin & Hlocked).
  apply offsets_In in Hin. rewrite (Hfree i Hin) in Hlocked. discriminate.
Qed.

(** [ReadFile] against the reference library. *)
Lemma ReadFile_ref (file : FileHandle) (p : Process State) f bytes cell :
  lookup (file_get file) (files (lib_state (sys p))) = Some f ->
  fst (ReadFile file bytes cell p)
  = let n := Z.max 0 (Z.min bytes (remaining_bytes f)) in
    if existsb (locked f) (offsets (of_pos f) n) && negb (of_zerofill f)
    then (false, [], option_map (fun _ => 0) cell)
    else (true, map (delivered f) (offsets (of_pos f) n),
          option_map (fun _ => n) cell).
Proof.
  intros Hl. unfold ReadFile, CascReadFile, invoke.
  cbn [lib_CascReadFile library]. unfold ref_CascReadFile. rewrite Hl.
  fold (remaining_bytes f). cbv zeta.
  destruct (existsb (locked f) _ && negb (of_zerofill f)); reflexivity.
Qed.

End RefReadFacts.

(** C8, as the code has it, against the reference library.  For an open
    file whose remaining bytes the library can deliver (none of them lies in
    an encrypted region whose key is missing, or the file was opened with
    zero-fill), a [ReadFile] asking for more bytes than remain returns true,
    stores exactly the remaining bytes and reports their number, which is
    less than the number asked for. *)
Theorem ReadFile_past_end_is_short `{hdr : CascHeader} (file : FileHandle)
    (p : Process Ref.State) (f : Ref.Opened) (bytes bytesRead : DWORD) :
  Ref.lookup (file_get file) (Ref.files (lib_state (sys p))) = Some f ->
  remaining_bytes f < bytes ->
  deliverable f (Ref.of_pos f) (Ref.of_pos f + remaining_bytes f) ->
  let r := fst (ReadFile file bytes (Some bytesRead) p) in
  fst (fst r) = true /\
  snd r = Some (remaining_bytes f) /\
  snd (fst r)
  = map (delivered f) (Ref.offsets (Ref.of_pos f) (remaining_bytes f)) /\
  Z.of_nat (List.length (snd (fst r))) = remaining_bytes f /\
  remaining_bytes f < bytes.
Proof.
  intros Hl Hshort Hdeliver r. subst r.
  rewrite (ReadFile_ref _ _ _ _ _ Hl). cbv zeta.
  assert (Hrem : 0 <= remaining_bytes f) by (unfold remaining_bytes; lia).
  replace (Z.max 0 (Z.min bytes (remaining_bytes f)))
    with (remaining_bytes f) by lia.
  replace (existsb (Ref.locked f)
             (Ref.offsets (Ref.of_pos f) (remaining_bytes f))
           && negb (Ref.of_zerofill f)) with false.
  - cbn [fst snd option_map].
    rewrite length_map, offsets_length, Z2Nat.id by exact Hrem.
    repeat split; try reflexivity; exact Hshort.
  - symmetry. destruct Hdeliver as [Hzf|Hfree].
    + rewrite Hzf. apply andb_false_r.
    + now rewrite (existsb_locked_false _ _ _ Hfree).
Qed.

(** The scenario of the specification: the 100-byte sample entry, cursor at
    byte 90, 50 bytes asked for; the read succeeds with the last 10 bytes. *)
Lemma ReadFile_past_end_is_short_witness :
  fst (@ReadFile _ (@Ref.library posix_header) Sample.file 50 (Some 0)
         (Sample.reading Sample.plain false 90))
  = (true, [90; 91; 92; 93; 94; 95; 96; 97; 98; 99], Some 10).
Proof.
  assert (Hdeliver :
            deliverable (Ref.mkOpened Sample.plain [3; 5] false 90) 90
              (90 + remaining_bytes (Ref.mkOpened Sample.plain [3; 5] false 90)))
    by (right; intros i _; reflexivity).
  assert (Hshort : remaining_bytes (Ref.mkOpened Sample.plain [3; 5] false 90)
                   < 50) by (vm_compute; reflexivity).
  destruct (@ReadFile_past_end_is_short posix_header Sample.file
              (Sample.reading Sample.plain false 90)
              (Ref.mkOpened Sample.plain [3; 5] false 90) 50 0
              eq_refl Hshort Hdeliver) as (Hok & Hcount & Hdata & _).
  destruct (fst (@ReadFile _ (@Ref.library posix_header) Sample.file 50
                   (Some 0) (Sample.reading Sample.plain false 90)))
    as [[okay data] count].
  cbn [fst snd] in Hok, Hcount, Hdata. rewrite Hok, Hcount, Hdata.
  reflexivity.
Defined.

(** C8 as stated fails on an entry with an encrypted region whose key the
    storage lacks, opened without zero-fill.  On the sample installation,
    opening the storage and its 100-byte sealed entry, seeking to byte 30
    and asking for 100 bytes when 70 remain: the read returns false with no
    byte read. *)
Lemma ReadFile_past_end_locked :
  remaining_bytes (Ref.mkOpened Sample.sealed [3; 5] false 30) = 70 /\
  fst (@seek_then_read posix_header _ (@Ref.library posix_header)
         "/wow" "sealed.bin" 30 100 Sample.boot) = (false, [], Some 0).
Proof. split; vm_compute; reflexivity. Qed.

(** ** Zero-fill of encrypted regions *)

Section ZerofillFacts.
Import Ref.
Context `{hdr : CascHeader}.

Lemma open_flags_carry (Hflags : flags_ok) name :
  Z.land (open_flags name true) CASC_OVERCOME_ENCRYPTED
  = CASC_OVERCOME_ENCRYPTED /\
  Z.land (open_flags name false) CASC_OVERCOME_ENCRYPTED = 0.
Proof.
  destruct Hflags as (_ & _ & _ & Hname & Hid & _).
  unfold open_flags, open_mode.
  destruct name; rewrite ?Z.land_lor_distr_l, ?Hname, ?Hid, ?Z.land_diag;
    auto.
Qed.

Lemma zerofill_bit (Hflags : flags_ok) name zerofill :
  (Z.land (open_flags name zerofill) CASC_OVERCOME_ENCRYPTED
   =? CASC_OVERCOME_ENCRYPTED) = zerofill.
Proof.
  destruct (open_flags_carry Hflags name) as (Hset & Hclear).
  destruct Hflags as (_ & _ & Hbit & _).
  destruct zerofill.
  - rewrite Hset. apply Z.eqb_refl.
  - rewrite Hclear. apply Z.eqb_neq. lia.
Qed.

(** A successful [OpenFile], either overload, against the reference
    library. *)
Lemma OpenFile_by_ref (Hflags : flags_ok) (storage : StorageHandle)
    (name : LPCSTR) localeMask printErrors zerofill (p : Process State)
    a e :
  lookup (storage_get storage) (storages (lib_state (sys p))) = Some a ->
  find (names name) (a_entries a) = Some e ->
  OpenFile_by storage name localeMask printErrors zerofill p
  = (mkFileHandle (fresh (lib_state (sys p))),
     mkProcess
       (mkSys (mkState (disk (lib_state (sys p)))
                 (storages (lib_state (sys p)))
                 ((fresh (lib_state (sys p)),
                   mkOpened e (a_keys a) zerofill 0)
                  :: files (lib_state (sys p)))
                 (fresh (lib_state (sys p)) + 1)) (last_error (sys p)))
       (stdout p) (stderr p)
       (calls p ++ [CallOpenFile (storage_get storage) name localeMask
                      (open_flags name zerofill)])).
Proof.
  intros Hs He.
  pose proof (zerofill_bit Hflags name zerofill) as Hbit.
  destruct name as [fileName|fileDataId];
    unfold OpenFile_by, OpenFile, OpenFile_id, bind, CascOpenFile, invoke;
    cbn [lib_CascOpenFile library]; unfold ref_CascOpenFile;
    rewrite Hs, He; unfold open_flags, open_mode in Hbit;
    destruct zerofill; rewrite Hbit; reflexivity.
Qed.

(** Open, seek and read against the reference library. *)
Lemma read_at_ref (Hflags : flags_ok) (storage : StorageHandle)
    (name : LPCSTR) localeMask printErrors zerofill (p : Process State)
    a e pos n :
  lookup (storage_get storage) (storages (lib_state (sys p))) = Some a ->
  find (names name) (a_entries a) = Some e ->
  0 <= pos -> 0 <= n -> pos + n <= e_size e -> pos < 2 ^ 63 ->
  fst (read_at storage name localeMask printErrors zerofill pos n p)
  = let f := mkOpened e (a_keys a) zerofill pos in
    if existsb (locked f) (offsets pos n) && negb zerofill
    then (false, [], Some 0)
    else (true, map (delivered f) (offsets pos n), Some n).
Proof.
  intros Hs He Hpos0 Hn Hsize Hmax.
  unfold read_at, bind.
  rewrite (OpenFile_by_ref Hflags _ _ _ _ _ _ _ _ Hs He).
  set (file := mkFileHandle _). set (p1 := mkProcess _ _ _ _).
  set (f0 := mkOpened e (a_keys a) zerofill 0).
  assert (Hl1 : lookup (file_get file) (files (lib_state (sys p1))) = Some f0)
    by (simpl; now rewrite Z.eqb_refl).
  assert (H64 : is_LONGLONG pos) by (unfold is_LONGLONG; lia).
  rewrite (SetFilePointer_ref Hflags _ _ _ _ Hl1 H64).
  replace (pos <? 0) with false by (symmetry; apply Z.ltb_ge; lia).
  set (p2 := mkProcess _ _ _ _).
  assert (Hl2 : lookup (file_get file) (files (lib_state (sys p2)))
                = Some (set_pos f0 pos))
    by (apply (lookup_update _ _ _ _ Hl1)).
  rewrite (ReadFile_ref _ _ _ _ _ Hl2). cbv zeta.
  replace (Z.max 0 (Z.min n (remaining_bytes (set_pos f0 pos)))) with n
    by (unfold remaining_bytes; simpl; lia).
  reflexivity.
Qed.

End ZerofillFacts.

(** C7.  Either overload of [OpenFile] passes the library flags that carry
    [CASC_OVERCOME_ENCRYPTED] when [zerofillEncryptedParts] is set, and the
    bare open mode when it is not.  Against the reference library, for a
    read inside the file that touches an encrypted region whose key the
    storage lacks: after an open with zero-fill the read succeeds, with a
    zero byte at every offset of such a region and the plain content
    elsewhere; after an open without it the read fails. *)
Theorem zerofill_decides_locked_reads `{hdr : CascHeader}
    (Hflags : flags_ok) :
  (forall (L : Type) (lib : CascLib L) (storage : StorageHandle)
          (name : LPCSTR) (localeMask : DWORD)
          (printErrors zerofill : bool) (p : Process L),
     nth_error
       (calls (snd (OpenFile_by storage name localeMask printErrors
                      zerofill p)))
       (List.length (calls p))
     = Some (CallOpenFile (storage_get storage) name localeMask
               (open_flags name zerofill)) /\
     Z.land (open_flags name true) CASC_OVERCOME_ENCRYPTED
     = CASC_OVERCOME_ENCRYPTED /\
     open_flags name false = open_mode name /\
     Z.land (open_flags name false) CASC_OVERCOME_ENCRYPTED = 0) /\
  (forall (storage : StorageHandle) (name : LPCSTR) (localeMask : DWORD)
          (printErrors : bool) (p : Process Ref.State)
          (a : Ref.Archive) (e : Ref.Entry) (pos : LONGLONG) (n : DWORD)
          (i : Z),
     Ref.lookup (storage_get storage) (Ref.storages (lib_state (sys p)))
     = Some a ->
     find (Ref.names name) (Ref.a_entries a) = Some e ->
     0 <= pos -> pos + n <= Ref.e_size e -> pos < 2 ^ 63 ->
     pos <= i < pos + n ->
     Ref.locked (Ref.mkOpened e (Ref.a_keys a) true pos) i = true ->
     fst (read_at storage name localeMask printErrors true pos n p)
     = (true,
        map (fun j => if Ref.locked (Ref.mkOpened e (Ref.a_keys a) true pos) j
                      then 0 else Ref.e_byte e j) (Ref.offsets pos n),
        Some n) /\
     fst (fst (fst
       (read_at storage name localeMask printErrors false pos n p))) = false).
Proof.
  split.
  - intros L lib storage name localeMask printErrors zerofill p.
    destruct (open_flags_carry Hflags name) as (Hset & Hclear).
    split; [|split; [exact Hset|split; [reflexivity|exact Hclear]]].
    destruct name as [fileName|fileDataId];
      unfold OpenFile_by, OpenFile, OpenFile_id, open_flags, open_mode, bind,
        CascOpenFile, invoke;
      destruct zerofill;
      match goal with
      | |- context [lib_CascOpenFile ?h ?nm ?m ?fl ?h0 ?st] =>
          destruct (lib_CascOpenFile h nm m fl h0 st) as [[okay handle] s']
      end;
      destruct okay; cbn [negb fst snd ret calls];
      try (unfold GetLastError, CascCloseFile, SetLastError, fprintf_stderr,
             invoke, ret; cbn [sys stdout stderr calls fst snd];
           destruct printErrors; cbn [sys stdout stderr calls fst snd];
           destruct (lib_CascCloseFile handle s') as [closed s''];
           cbn [sys stdout stderr calls fst snd];
           rewrite <- !app_assoc);
      rewrite nth_error_app2 by lia; rewrite Nat.sub_diag; reflexivity.
  - intros storage name localeMask printErrors p a e pos n i
      Hs He Hpos0 Hsize Hmax Hi Hlocked.
    assert (Hn : 0 <= n) by lia.
    rewrite !(read_at_ref Hflags _ _ _ _ _ _ _ _ _ _
                Hs He Hpos0 Hn Hsize Hmax).
    cbv zeta. rewrite andb_false_r. split; [reflexivity|].
    replace (existsb
               (Ref.locked (Ref.mkOpened e (Ref.a_keys a) false pos))
               (Ref.offsets pos n)) with true; [reflexivity|].
    symmetry. apply existsb_exists. exists i.
    split; [apply offsets_In; exact Hi|exact Hlocked].
Qed.

(** The sealed sample entry, opened by name and by id on the mounted
    storage, read for 5 bytes at offset 38: offsets 40..42 lie in its
    encrypted region 40..59 under the missing key 7. *)
Lemma zerofill_decides_locked_reads_witness :
  @flags_ok posix_header /\
  (fst (@read_at posix_header _ (@Ref.library posix_header) Sample.storage
          (c_str "sealed.bin") 0 false true 38 5 Sample.mounted)
   = (true, [39; 40; 0; 0; 0], Some 5) /\
   fst (fst (fst (@read_at posix_header _ (@Ref.library posix_header)
                    Sample.storage (c_str "sealed.bin") 0 false false 38 5
                    Sample.mounted))) = false) /\
  (fst (@read_at posix_header _ (@Ref.library posix_header) Sample.storage
          (CASC_FILE_DATA_ID 2) 0 false true 38 5 Sample.mounted)
   = (true, [39; 40; 0; 0; 0], Some 5) /\
   fst (fst (fst (@read_at posix_header _ (@Ref.library posix_header)
                    Sample.storage (CASC_FILE_DATA_ID 2) 0 false false 38 5
                    Sample.mounted))) = false).
Proof.
  split; [exact posix_flags_ok|].
  destruct (@zerofill_decides_locked_reads posix_header posix_flags_ok)
    as (_ & Hmodel).
  split.
  - apply (Hmodel Sample.storage (c_str "sealed.bin") 0 false Sample.mounted
             Sample.archive Sample.sealed 38 5 41);
      try reflexivity; simpl; lia.
  - apply (Hmodel Sample.storage (CASC_FILE_DATA_ID 2) 0 false Sample.mounted
             Sample.archive Sample.sealed 38 5 41);
      try reflexivity; simpl; lia.
Defined.

(** * Further properties of the file *)

(** ** Decoding: the unknown label and distinct labels *)

Section DecodingMore.
Context `{hdr : CascHeader}.

Lemma first_case_In table error :
  In error (map fst table) -> In (first_case table error) (map snd table).
Proof.
  induction table as [|[c l] table IH]; simpl; [tauto|].
  intros Hin. destruct (Z.eqb_spec error c) as [->|Hne]; [now left|].
  right. apply IH. destruct Hin as [Heq|Hin]; [congruence|exact Hin].
Qed.

Lemma UNKNOWN_not_a_label : ~ In "UNKNOWN" labels.
Proof. unfold labels. simpl. intuition discriminate. Qed.

Lemma labels_NoDup : NoDup labels.
Proof.
  unfold labels.
  repeat (constructor; [simpl; intuition discriminate|]). constructor.
Qed.

Lemma defined_code_label error :
  In error defined_codes -> In (HumanReadableCASCError error) labels.
Proof.
  intros Hin. rewrite HumanReadableCASCError_first_case.
  change labels with (map snd (combine defined_codes labels)) at 2.
  apply first_case_In. exact Hin.
Qed.

Lemma NoDup_map_injective {A B} (f : A -> B) l :
  NoDup (map f l) ->
  forall x y, In x l -> In y l -> f x = f y -> x = y.
Proof.
  induction l as [|a l IH]; simpl; intros Hnd x y Hx Hy Hxy; [tauto|].
  inversion Hnd as [|? ? Hnotin Hnd']; subst.
  destruct Hx as [->|Hx], Hy as [->|Hy]; auto.
  - exfalso. apply Hnotin. rewrite Hxy. now apply in_map.
  - exfalso. apply Hnotin. rewrite <- Hxy. now apply in_map.
Qed.

End DecodingMore.

(** X1.  Whatever the header, [HumanReadableCASCError] returns UNKNOWN
    exactly on the inputs that are none of the sixteen codes the switch
    names, and its result is always one of the sixteen labels or UNKNOWN. *)
Theorem HumanReadableCASCError_UNKNOWN_iff `{hdr : CascHeader}
    (error : DWORD) :
  (HumanReadableCASCError error = "UNKNOWN" <-> ~ In error defined_codes) /\
  In (HumanReadableCASCError error) (labels ++ ["UNKNOWN"]).
Proof.
  split; [split|].
  - intros Hunknown Hin. apply UNKNOWN_not_a_label.
    rewrite <- Hunknown. apply defined_code_label. exact Hin.
  - apply unknown_outside_defined_codes.
  - apply in_or_app.
    destruct (in_dec Z.eq_dec error defined_codes) as [Hin|Hout].
    + left. apply defined_code_label. exact Hin.
    + right. rewrite (unknown_outside_defined_codes _ Hout). now left.
Qed.

(** X2.  When the sixteen status codes of the header are pairwise distinct,
    two different codes among them are never given the same label. *)
Theorem HumanReadableCASCError_separates_codes `{hdr : CascHeader}
    (error1 error2 : DWORD) :
  NoDup defined_codes ->
  In error1 defined_codes -> In error2 defined_codes ->
  error1 <> error2 ->
  HumanReadableCASCError error1 <> HumanReadableCASCError error2.
Proof.
  intros Hnd H1 H2 Hne Heq. apply Hne.
  apply (NoDup_map_injective HumanReadableCASCError defined_codes);
    try assumption.
  rewrite (labels_of_defined_codes Hnd). apply labels_NoDup.
Qed.

(** Codes 2 and 9 of the POSIX header: FILE_NOT_FOUND and INVALID_HANDLE. *)
Lemma HumanReadableCASCError_separates_codes_witness :
  @HumanReadableCASCError posix_header 2 = "FILE_NOT_FOUND" /\
  @HumanReadableCASCError posix_header 2
  <> @HumanReadableCASCError posix_header 9.
Proof.
  split; [reflexivity|].
  apply (@HumanReadableCASCError_separates_codes posix_header 2 9).
  - exact (proj1 posix_codes_ok).
  - simpl. tauto.
  - simpl. tauto.
  - discriminate.
Defined.

(** ** Opening: the success path, the console, the two overloads *)


(** X3.  When the library's storage open succeeds, [OpenStorage] returns
    the handle the library stored, prints the one line naming the path on
    standard output, and does nothing else: the library state and the
    last-error cell are as the open left them, and the open is the only
    call made (no close, no read or write of the last error). *)
Theorem OpenStorage_success `{hdr : CascHeader} {L : Type}
    `{lib : CascLib L} (path : string) (localeMask : DWORD) (p : Process L)
    (handle : HANDLE) (s : Sys L) :
  lib_CascOpenStorage path localeMask nullptr (sys p) = ((true, handle), s) ->
  OpenStorage path localeMask p
  = (mkStorageHandle handle,
     mkProcess s (stdout p ++ [opened_line path]) (stderr p)
       (calls p ++ [CallOpenStorage path localeMask])).
Proof.
  intros Hopen. rewrite OpenStorage_run, Hopen. reflexivity.
Qed.

(** The storage of the sample installation, opened as handle 16. *)
Lemma OpenStorage_success_witness :
  @OpenStorage posix_header _ (@Ref.library posix_header) "/wow" 0 Sample.boot
  = (Sample.storage,
     mkProcess (sys Sample.mounted) [opened_line "/wow"] []
       [CallOpenStorage "/wow" 0]).
Proof.
  exact (@OpenStorage_success posix_header _ (@Ref.library posix_header)
           "/wow" 0 Sample.boot 16 (sys Sample.mounted) eq_refl).
Defined.

(** X4.  When the library's file open succeeds, either overload of
    [OpenFile] returns the handle the library stored and prints nothing,
    whatever [printErrors] is; the library state and the last-error cell are
    as the open left them, and the open is the only call made. *)
Theorem OpenFile_success `{hdr : CascHeader} {L : Type} `{lib : CascLib L}
    (storage : StorageHandle) (name : LPCSTR) (localeMask : DWORD)
    (printErrors zerofill : bool) (p : Process L)
    (handle : HANDLE) (s : Sys L) :
  lib_CascOpenFile (storage_get storage) name localeMask
    (open_flags name zerofill) nullptr (sys p) = ((true, handle), s) ->
  OpenFile_by storage name localeMask printErrors zerofill p
  = (mkFileHandle handle,
     mkProcess s (stdout p) (stderr p)
       (calls p ++ [CallOpenFile (storage_get storage) name localeMask
                      (open_flags name zerofill)])).
Proof.
  intros Hopen. rewrite OpenFile_by_run, Hopen. reflexivity.
Qed.

(** The plain sample entry opened by name with diagnostics on, and the
    4 GiB entry opened by id with zero-fill: handle 17 both times, nothing
    printed. *)
Lemma OpenFile_success_witness :
  @OpenFile posix_header _ (@Ref.library posix_header) Sample.storage
    "plain.bin" 0 true false Sample.mounted
  = (Sample.file,
     mkProcess (sys (Sample.reading Sample.plain false 0)) [] []
       [CallOpenFile 16 (c_str "plain.bin") 0 0]) /\
  @OpenFile_id posix_header _ (@Ref.library posix_header) Sample.storage
    3 0 true true Sample.mounted
  = (Sample.file,
     mkProcess (sys (Sample.reading Sample.huge true 0)) [] []
       [CallOpenFile 16 (CASC_FILE_DATA_ID 3) 0 35]).
Proof.
  split.
  - exact (@OpenFile_success posix_header _ (@Ref.library posix_header)
             Sample.storage (c_str "plain.bin") 0 true false Sample.mounted
             17 (sys (Sample.reading Sample.plain false 0)) eq_refl).
  - exact (@OpenFile_success posix_header _ (@Ref.library posix_header)
             Sample.storage (CASC_FILE_DATA_ID 3) 0 true true Sample.mounted
             17 (sys (Sample.reading Sample.huge true 0)) eq_refl).
Defined.

(** X5.  The console, whatever the library answers.  [OpenStorage] adds
    exactly one line to standard output and never writes to standard error.
    [OpenFile], either overload, never writes to standard output; it adds
    nothing to standard error when [printErrors] is off or the open
    succeeded, and exactly one line otherwise. *)
Theorem open_console_discipline `{hdr : CascHeader} {L : Type}
    `{lib : CascLib L} (p : Process L) :
  (forall path localeMask,
     let r := OpenStorage path localeMask p in
     List.length (stdout (snd r)) = S (List.length (stdout p)) /\
     firstn (List.length (stdout p)) (stdout (snd r)) = stdout p /\
     stderr (snd r) = stderr p) /\
  (forall storage name localeMask printErrors zerofill,
     let r := OpenFile_by storage name localeMask printErrors zerofill p in
     let opened :=
       fst (fst (lib_CascOpenFile (storage_get storage) name localeMask
                   (open_flags name zerofill) nullptr (sys p))) in
     stdout (snd r) = stdout p /\
     firstn (List.length (stderr p)) (stderr (snd r)) = stderr p /\
     List.length (stderr (snd r))
     = ((if printErrors && negb opened then 1 else 0)
        + List.length (stderr p))%nat).
Proof.
  split.
  - intros path localeMask r. subst r. rewrite OpenStorage_run.
    destruct (lib_CascOpenStorage path localeMask nullptr (sys p))
      as [[opened handle] s].
    destruct opened; cbn [snd stdout stderr];
      rewrite length_app, firstn_app, Nat.sub_diag, firstn_all, app_nil_r;
      simpl; repeat split; lia.
  - intros storage name localeMask printErrors zerofill r opened.
    subst r opened. rewrite OpenFile_by_run.
    destruct (lib_CascOpenFile (storage_get storage) name localeMask
                (open_flags name zerofill) nullptr (sys p))
      as [[opened handle] s].
    destruct opened, printErrors; cbn [fst snd stdout stderr negb andb];
      rewrite ?length_app, ?firstn_app, ?Nat.sub_diag, ?firstn_all,
        ?app_nil_r; simpl; repeat split; lia.
Qed.

(** X6.  The two overloads of [OpenFile] are the same procedure on two
    kinds of request.  Whenever the library answers the by-name request and
    the by-id request alike, the overloads return the same handle and leave
    the same library state, last-error cell and standard output, and as many
    lines on standard error, the same ones when [printErrors] is off. *)
Theorem OpenFile_overloads_agree `{hdr : CascHeader} {L : Type}
    `{lib : CascLib L} (storage : StorageHandle) (fileName : string)
    (fileDataId : DWORD) (localeMask : DWORD) (printErrors zerofill : bool)
    (p : Process L) :
  lib_CascOpenFile (storage_get storage) (c_str fileName) localeMask
    (open_flags (c_str fileName) zerofill) nullptr (sys p)
  = lib_CascOpenFile (storage_get storage) (CASC_FILE_DATA_ID fileDataId)
      localeMask (open_flags (CASC_FILE_DATA_ID fileDataId) zerofill)
      nullptr (sys p) ->
  let byName := OpenFile storage fileName localeMask printErrors zerofill p in
  let byId := OpenFile_id storage fileDataId localeMask printErrors zerofill p in
  fst byName = fst byId /\
  sys (snd byName) = sys (snd byId) /\
  stdout (snd byName) = stdout (snd byId) /\
  List.length (stderr (snd byName)) = List.length (stderr (snd byId)) /\
  (printErrors = false -> stderr (snd byName) = stderr (snd byId)).
Proof.
  intros Hsame byName byId. subst byName byId.
  change (OpenFile storage fileName localeMask printErrors zerofill p)
    with (OpenFile_by storage (c_str fileName) localeMask printErrors
            zerofill p).
  change (OpenFile_id storage fileDataId localeMask printErrors zerofill p)
    with (OpenFile_by storage (CASC_FILE_DATA_ID fileDataId) localeMask
            printErrors zerofill p).
  rewrite !OpenFile_by_run, Hsame.
  destruct (lib_CascOpenFile (storage_get storage)
              (CASC_FILE_DATA_ID fileDataId) localeMask
              (open_flags (CASC_FILE_DATA_ID fileDataId) zerofill) nullptr
              (sys p)) as [[opened handle] s].
  destruct opened; cbn [fst snd sys stdout stderr].
  - repeat split.
  - repeat split.
    + now rewrite !length_app; destruct printErrors.
    + intros ->. reflexivity.
Qed.

(** The plain sample entry, which is both [plain.bin] and file-data id 1:
    both overloads return handle 17 and leave the same library state. *)
Lemma OpenFile_overloads_agree_witness :
  fst (@OpenFile posix_header _ (@Ref.library posix_header) Sample.storage
         "plain.bin" 0 true false Sample.mounted)
  = fst (@OpenFile_id posix_header _ (@Ref.library posix_header)
           Sample.storage 1 0 true false Sample.mounted) /\
  sys (snd (@OpenFile posix_header _ (@Ref.library posix_header)
              Sample.storage "plain.bin" 0 true false Sample.mounted))
  = sys (snd (@OpenFile_id posix_header _ (@Ref.library posix_header)
                Sample.storage 1 0 true false Sample.mounted)).
Proof.
  destruct (@OpenFile_overloads_agree posix_header _
              (@Ref.library posix_header) Sample.storage "plain.bin" 1 0
              true false Sample.mounted eq_refl) as (Hh & Hs & _).
  split; [exact Hh|exact Hs].
Defined.

(** ** Metadata queries: the success path *)

(** X7.  When the library's storage-info query succeeds, [GetBuildNumber]
    returns the build number of the record the library filled and
    [GetInstalledLocalesMask] the mask it stored, whatever the uninitialised
    local held on entry if the library overwrote it; neither prints, and the
    query is the only call made. *)
Theorem metadata_queries_success `{hdr : CascHeader} {L : Type}
    `{lib : CascLib L} (storage : StorageHandle) (p : Process L) :
  (forall product product' needed s,
     lib_CascGetStorageInfo T_CASC_STORAGE_PRODUCT (storage_get storage)
       CascStorageProduct product sizeof_CASC_STORAGE_PRODUCT 0 (sys p)
     = ((true, product', needed), s) ->
     GetBuildNumber product storage p
     = (dwBuildNumber product',
        mkProcess s (stdout p) (stderr p)
          (calls p ++ [CallGetStorageInfo (storage_get storage)
                         CascStorageProduct sizeof_CASC_STORAGE_PRODUCT]))) /\
  (forall locales locales' needed s,
     lib_CascGetStorageInfo T_DWORD (storage_get storage)
       CascStorageInstalledLocales locales 4 0 (sys p)
     = ((true, locales', needed), s) ->
     GetInstalledLocalesMask locales storage p
     = (locales',
        mkProcess s (stdout p) (stderr p)
          (calls p ++ [CallGetStorageInfo (storage_get storage)
                         CascStorageInstalledLocales 4]))).
Proof.
  split.
  - intros product product' needed s Hquery.
    unfold GetBuildNumber, GetStorageInfo, bind, CascGetStorageInfo, invoke.
    simpl sizeof. rewrite Hquery. reflexivity.
  - intros locales locales' needed s Hquery.
    unfold GetInstalledLocalesMask, GetStorageInfo, bind, CascGetStorageInfo,
      invoke.
    simpl sizeof. rewrite Hquery. reflexivity.
Qed.

(** The mounted sample storage: build 31478 and locale mask 514, although
    the locals held 99 and 77 on entry. *)
Lemma metadata_queries_success_witness :
  fst (@GetBuildNumber posix_header _ (@Ref.library posix_header)
         (Build_CASC_STORAGE_PRODUCT 99) Sample.storage Sample.mounted)
  = 31478 /\
  fst (@GetInstalledLocalesMask posix_header _ (@Ref.library posix_header)
         77 Sample.storage Sample.mounted) = 514.
Proof.
  destruct (@metadata_queries_success posix_header _
              (@Ref.library posix_header) Sample.storage Sample.mounted)
    as (Hbuild & Hlocales).
  split.
  - rewrite (Hbuild (Build_CASC_STORAGE_PRODUCT 99)
               (Build_CASC_STORAGE_PRODUCT 31478) 16 (sys Sample.mounted)
               eq_refl). reflexivity.
  - rewrite (Hlocales 77 514 4 (sys Sample.mounted) eq_refl). reflexivity.
Defined.

(** ** The pass-through operations *)

(** X8.  [GetFileSize], [GetFilePointer], [SetFilePointer], [ReadFile] and
    [HasTactKey] are silent single calls: each leaves both console streams
    untouched, makes exactly one library call and no other, and leaves the
    library state and the last-error cell exactly as that call left them
    (this layer neither reads nor writes the last error). *)
Theorem pass_through_is_silent `{hdr : CascHeader} {L : Type}
    `{lib : CascLib L} (p : Process L) :
  (forall file high,
     snd (GetFileSize file high p)
     = mkProcess (snd (lib_CascGetFileSize (file_get file) high (sys p)))
         (stdout p) (stderr p)
         (calls p ++ [CallGetFileSize (file_get file) high])) /\
  (forall file,
     snd (GetFilePointer file p)
     = mkProcess
         (snd (lib_CascSetFilePointer (file_get file) 0 None FILE_CURRENT
                 (sys p)))
         (stdout p) (stderr p)
         (calls p ++ [CallSetFilePointer (file_get file) 0 None
                        FILE_CURRENT])) /\
  (forall file position,
     snd (SetFilePointer file position p)
     = mkProcess
         (snd (lib_CascSetFilePointer (file_get file)
                 (fst (memcpy_parts position))
                 (Some (snd (memcpy_parts position))) FILE_BEGIN (sys p)))
         (stdout p) (stderr p)
         (calls p ++ [CallSetFilePointer (file_get file)
                        (fst (memcpy_parts position))
                        (Some (snd (memcpy_parts position))) FILE_BEGIN])) /\
  (forall file bytes bytesRead,
     snd (ReadFile file bytes bytesRead p)
     = mkProcess
         (snd (lib_CascReadFile (file_get file) bytes bytesRead (sys p)))
         (stdout p) (stderr p)
         (calls p ++ [CallReadFile (file_get file) bytes])) /\
  (forall storage keyLookup,
     snd (HasTactKey storage keyLookup p)
     = mkProcess
         (snd (lib_CascFindEncryptionKey (storage_get storage) keyLookup
                 (sys p)))
         (stdout p) (stderr p)
         (calls p ++ [CallFindEncryptionKey (storage_get storage)
                        keyLookup])).
Proof.
  repeat split; intros.
  - unfold GetFileSize, CascGetFileSize, invoke.
    destruct (lib_CascGetFileSize (file_get file) high (sys p))
      as [[r high'] s]. reflexivity.
  - unfold GetFilePointer, bind, CascSetFilePointer, invoke.
    destruct (lib_CascSetFilePointer (file_get file) 0 None FILE_CURRENT
                (sys p)) as [[r hi'] s]. reflexivity.
  - unfold SetFilePointer, bind, CascSetFilePointer, invoke.
    destruct (lib_CascSetFilePointer (file_get file)
                (fst (memcpy_parts position))
                (Some (snd (memcpy_parts position))) FILE_BEGIN (sys p))
      as [[r hi'] s]. reflexivity.
  - unfold ReadFile, CascReadFile, invoke.
    destruct (lib_CascReadFile (file_get file) bytes bytesRead (sys p))
      as [[[okay data] count] s]. reflexivity.
  - unfold HasTactKey, bind, CascFindEncryptionKey, invoke.
    destruct (lib_CascFindEncryptionKey (storage_get storage) keyLookup
                (sys p)) as [key s]. reflexivity.
Qed.

(** ** Scopes: opening and letting the handle go *)

(** X9.  A failed open followed by the destruction of the handle it
    returned.  The destructor makes no call: the calls of the whole scope
    are the four of the failure path, the only close being the one made
    there on the partial handle, and the last-error cell still holds the
    code of the failed open.  This holds for the storage and for either
    overload of the file open. *)
Theorem failed_open_then_destroy `{hdr : CascHeader} {L : Type}
    `{lib : CascLib L} (p : Process L) :
  (forall path localeMask partial s,
     lib_CascOpenStorage path localeMask nullptr (sys p)
     = ((false, partial), s) ->
     let r := open_storage_then_destroy path localeMask p in
     calls (snd r)
     = calls p ++ [CallOpenStorage path localeMask; CallGetLastError;
                   CallCloseStorage partial; CallSetLastError (last_error s)] /\
     last_error (sys (snd r)) = last_error s) /\
  (forall storage name localeMask printErrors zerofill partial s,
     lib_CascOpenFile (storage_get storage) name localeMask
       (open_flags name zerofill) nullptr (sys p) = ((false, partial), s) ->
     let r := open_file_then_destroy storage name localeMask printErrors
                zerofill p in
     calls (snd r)
     = calls p ++ [CallOpenFile (storage_get storage) name localeMask
                     (open_flags name zerofill);
                   CallGetLastError; CallCloseFile partial;
                   CallSetLastError (last_error s)] /\
     last_error (sys (snd r)) = last_error s).
Proof.
  split.
  - intros path localeMask partial s Hopen r. subst r.
    unfold open_storage_then_destroy, bind.
    rewrite OpenStorage_run, Hopen. split; reflexivity.
  - intros storage name localeMask printErrors zerofill partial s Hopen r.
    subst r. unfold open_file_then_destroy, bind.
    rewrite OpenFile_by_run, Hopen. split; reflexivity.
Qed.

(** The sample installation: a storage path and an entry that do not
    exist.  One close each, on the null partial handle; code 2 stays. *)
Lemma failed_open_then_destroy_witness :
  (calls (snd (@open_storage_then_destroy posix_header _
                 (@Ref.library posix_header) "/nowhere" 0 Sample.boot))
   = [CallOpenStorage "/nowhere" 0; CallGetLastError; CallCloseStorage 0;
      CallSetLastError 2] /\
   last_error (sys (snd (@open_storage_then_destroy posix_header _
                           (@Ref.library posix_header) "/nowhere" 0
                           Sample.boot))) = 2) /\
  (calls (snd (@open_file_then_destroy posix_header _
                 (@Ref.library posix_header) Sample.storage
                 (CASC_FILE_DATA_ID 77) 0 false true Sample.mounted))
   = [CallOpenFile 16 (CASC_FILE_DATA_ID 77) 0 35; CallGetLastError;
      CallCloseFile 0; CallSetLastError 2] /\
   last_error (sys (snd (@open_file_then_destroy posix_header _
                           (@Ref.library posix_header) Sample.storage
                           (CASC_FILE_DATA_ID 77) 0 false true
                           Sample.mounted))) = 2).
Proof.
  destruct (@failed_open_then_destroy posix_header _
              (@Ref.library posix_header) Sample.boot) as (Hstorage & _).
  destruct (@failed_open_then_destroy posix_header _
              (@Ref.library posix_header) Sample.mounted) as (_ & Hfile).
  split.
  - exact (Hstorage "/nowhere" 0 nullptr (mkSys Sample.installed 2) eq_refl).
  - exact (Hfile Sample.storage (CASC_FILE_DATA_ID 77) 0 false true nullptr
             (mkSys (lib_state (sys Sample.mounted)) 2) eq_refl).
Defined.

(** X10.  A successful open followed by the destruction of the handle it
    returned.  The scope closes what it opened exactly once: besides the
    open, the only call is one close on the handle the library stored, made
    by the destructor; if the library reported success but stored a null or
    invalid handle, no close is made at all.  This holds for the storage and
    for either overload of the file open. *)
Theorem successful_open_then_destroy `{hdr : CascHeader} {L : Type}
    `{lib : CascLib L} (p : Process L) :
  (forall path localeMask handle s,
     lib_CascOpenStorage path localeMask nullptr (sys p)
     = ((true, handle), s) ->
     let r := open_storage_then_destroy path localeMask p in
     calls (snd r)
     = calls p ++ CallOpenStorage path localeMask
                  :: (if releasable handle
                      then [CallCloseStorage handle] else []) /\
     sys (snd r)
     = (if releasable handle
        then snd (lib_CascCloseStorage handle s) else s)) /\
  (forall storage name localeMask printErrors zerofill handle s,
     lib_CascOpenFile (storage_get storage) name localeMask
       (open_flags name zerofill) nullptr (sys p) = ((true, handle), s) ->
     let r := open_file_then_destroy storage name localeMask printErrors
                zerofill p in
     calls (snd r)
     = calls p ++ CallOpenFile (storage_get storage) name localeMask
                    (open_flags name zerofill)
                  :: (if releasable handle then [CallCloseFile handle] else []) /\
     sys (snd r)
     = (if releasable handle then snd (lib_CascCloseFile handle s) else s)).
Proof.
  split.
  - intros path localeMask handle s Hopen r. subst r.
    unfold open_storage_then_destroy, bind.
    rewrite OpenStorage_run, Hopen.
    unfold StorageHandle_destroy, StorageDeleter, releasable.
    cbn [storage_get].
    destruct (Z.eqb_spec handle nullptr) as [->|Hnull]; [split; reflexivity|].
    cbn [negb andb].
    destruct (negb (handle =? INVALID_HANDLE_VALUE)); [|split; reflexivity].
    unfold bind, CascCloseStorage, invoke, ret. cbn [sys stdout stderr calls].
    destruct (lib_CascCloseStorage handle s) as [closed s'].
    cbn [snd sys calls]. split; [|reflexivity].
    now rewrite <- app_assoc.
  - intros storage name localeMask printErrors zerofill handle s Hopen r.
    subst r. unfold open_file_then_destroy, bind.
    rewrite OpenFile_by_run, Hopen.
    unfold FileHandle_destroy, FileDeleter, releasable.
    cbn [file_get].
    destruct (Z.eqb_spec handle nullptr) as [->|Hnull]; [split; reflexivity|].
    cbn [negb andb].
    destruct (negb (handle =? INVALID_HANDLE_VALUE)); [|split; reflexivity].
    unfold bind, CascCloseFile, invoke, ret. cbn [sys stdout stderr calls].
    destruct (lib_CascCloseFile handle s) as [closed s'].
    cbn [snd sys calls]. split; [|reflexivity].
    now rewrite <- app_assoc.
Qed.

(** The sample installation: opening and dropping the storage, and opening
    and dropping the plain entry, each closes its handle once and takes the
    library back to where it was but for the next free handle. *)
Lemma successful_open_then_destroy_witness :
  calls (snd (@open_storage_then_destroy posix_header _
                (@Ref.library posix_header) "/wow" 0 Sample.boot))
  = [CallOpenStorage "/wow" 0; CallCloseStorage 16] /\
  calls (snd (@open_file_then_destroy posix_header _
                (@Ref.library posix_header) Sample.storage
                (c_str "plain.bin") 0 false false Sample.mounted))
  = [CallOpenFile 16 (c_str "plain.bin") 0 0; CallCloseFile 17] /\
  Ref.files (lib_state (sys (snd (@open_file_then_destroy posix_header _
                (@Ref.library posix_header) Sample.storage
                (c_str "plain.bin") 0 false false Sample.mounted)))) = [].
Proof.
  destruct (@successful_open_then_destroy posix_header _
              (@Ref.library posix_header) Sample.boot) as (Hstorage & _).
  destruct (@successful_open_then_destroy posix_header _
              (@Ref.library posix_header) Sample.mounted) as (_ & Hfile).
  destruct (Hstorage "/wow" 0 16 (sys Sample.mounted) eq_refl) as (Hc1 & _).
  destruct (Hfile Sample.storage (c_str "plain.bin") 0 false false 17
              (sys (Sample.reading Sample.plain false 0)) eq_refl)
    as (Hc2 & Hs2).
  split; [exact Hc1|]. split; [exact Hc2|].
  rewrite Hs2. reflexivity.
Defined.

(** ** The halves of a seek position *)

Lemma SetFilePointer_calls `{hdr : CascHeader} {L : Type} `{lib : CascLib L}
    (file : FileHandle) (position : LONGLONG) (p : Process L) :
  calls (snd (SetFilePointer file position p))
  = calls p ++ [CallSetFilePointer (file_get file)
                  (fst (memcpy_parts position))
                  (Some (snd (memcpy_parts position))) FILE_BEGIN].
Proof.
  unfold SetFilePointer, bind, CascSetFilePointer, invoke.
  destruct (lib_CascSetFilePointer (file_get file)
              (fst (memcpy_parts position))
              (Some (snd (memcpy_parts position))) FILE_BEGIN (sys p))
    as [[r hi'] s]. reflexivity.
Qed.

Lemma to_LONG_upper_half z :
  2 ^ 31 <= z < 2 ^ 32 -> to_LONG z = z - 2 ^ 32.
Proof.
  intros Hz. unfold to_LONG.
  replace (z + 2 ^ 31) with ((z + 2 ^ 31 - 2 ^ 32) + 1 * 2 ^ 32) by lia.
  rewrite Z_mod_plus_full, Z.mod_small; lia.
Qed.

Lemma high_half_small z :
  - 2 ^ 32 <= z < 2 ^ 32 -> z / 2 ^ 32 = if z <? 0 then -1 else 0.
Proof.
  intros Hz. pose proof (Z.div_mod z (2 ^ 32)).
  pose proof (Z.mod_pos_bound z (2 ^ 32)).
  destruct (Z.ltb_spec z 0); lia.
Qed.

(** X11.  The split of a seek position into two [LONG] halves loses
    nothing: two different signed 64-bit positions never give the same pair
    of halves, so [SetFilePointer] never hands the library the same seek for
    two different positions. *)
Theorem memcpy_parts_separates_positions (position1 position2 : LONGLONG) :
  is_LONGLONG position1 -> is_LONGLONG position2 ->
  position1 <> position2 ->
  memcpy_parts position1 <> memcpy_parts position2.
Proof.
  intros H1 H2 Hne Heq. apply Hne.
  rewrite !memcpy_parts_halves in Heq.
  rewrite (to_LONG_id _ (high_half_range _ H1)) in Heq.
  rewrite (to_LONG_id _ (high_half_range _ H2)) in Heq.
  injection Heq as Hlo Hhi.
  apply (f_equal to_DWORD) in Hlo. rewrite !to_DWORD_to_LONG in Hlo.
  pose proof (halves_rebuild position1) as E1.
  pose proof (halves_rebuild position2) as E2.
  change (Z.pow_pos 2 32) with (2 ^ 32) in Hhi.
  rewrite Hlo, Hhi in E1. congruence.
Qed.

(** Offsets 5 and 2^32 + 5: the same low half, high halves 0 and 1. *)
Lemma memcpy_parts_separates_positions_witness :
  memcpy_parts 5 = (5, 0) /\ memcpy_parts (2 ^ 32 + 5) = (5, 1) /\
  memcpy_parts 5 <> memcpy_parts (2 ^ 32 + 5).
Proof.
  split; [reflexivity|]. split; [reflexivity|].
  apply memcpy_parts_separates_positions; unfold is_LONGLONG; lia.
Defined.

(** X12.  What the seek carries at the boundaries of the low half.  A
    position below 2 GiB is passed unchanged with high half 0; a position
    from 2 GiB up to 4 GiB is passed as the negative number position - 2^32
    with high half 0; a negative position down to -2 GiB is passed unchanged
    with high half -1. *)
Theorem SetFilePointer_halves_by_range `{hdr : CascHeader} {L : Type}
    `{lib : CascLib L} (file : FileHandle) (position : LONGLONG)
    (p : Process L) :
  (0 <= position < 2 ^ 31 ->
   calls (snd (SetFilePointer file position p))
   = calls p ++ [CallSetFilePointer (file_get file) position (Some 0)
                   FILE_BEGIN]) /\
  (2 ^ 31 <= position < 2 ^ 32 ->
   calls (snd (SetFilePointer file position p))
   = calls p ++ [CallSetFilePointer (file_get file) (position - 2 ^ 32)
                   (Some 0) FILE_BEGIN]) /\
  (- 2 ^ 31 <= position < 0 ->
   calls (snd (SetFilePointer file position p))
   = calls p ++ [CallSetFilePointer (file_get file) position (Some (-1))
                   FILE_BEGIN]).
Proof.
  rewrite SetFilePointer_calls, memcpy_parts_halves. cbn [fst snd].
  repeat split; intros Hrange.
  - rewrite high_half_small by lia.
    replace (position <? 0) with false by (symmetry; apply Z.ltb_ge; lia).
    rewrite (to_LONG_id position) by (unfold is_LONG; lia). reflexivity.
  - rewrite high_half_small by lia.
    replace (position <? 0) with false by (symmetry; apply Z.ltb_ge; lia).
    rewrite to_LONG_upper_half by lia. reflexivity.
  - rewrite high_half_small by lia.
    replace (position <? 0) with true by (symmetry; apply Z.ltb_lt; lia).
    rewrite (to_LONG_id position) by (unfold is_LONG; lia). reflexivity.
Qed.

(** Seeks of the plain sample entry to 90, to 3 GiB and to -8. *)
Lemma SetFilePointer_halves_by_range_witness :
  calls (snd (@SetFilePointer posix_header _ (@Ref.library posix_header)
                Sample.file 90 (Sample.reading Sample.plain false 0)))
  = [CallSetFilePointer 17 90 (Some 0) 0] /\
  calls (snd (@SetFilePointer posix_header _ (@Ref.library posix_header)
                Sample.file (3 * 2 ^ 30)
                (Sample.reading Sample.plain false 0)))
  = [CallSetFilePointer 17 (- 2 ^ 30) (Some 0) 0] /\
  calls (snd (@SetFilePointer posix_header _ (@Ref.library posix_header)
                Sample.file (-8) (Sample.reading Sample.plain false 0)))
  = [CallSetFilePointer 17 (-8) (Some (-1)) 0].
Proof.
  split; [|split].
  - apply (@SetFilePointer_halves_by_range posix_header _
             (@Ref.library posix_header) Sample.file 90
             (Sample.reading Sample.plain false 0)). lia.
  - apply (@SetFilePointer_halves_by_range posix_header _
             (@Ref.library posix_header) Sample.file (3 * 2 ^ 30)
             (Sample.reading Sample.plain false 0)). lia.
  - apply (@SetFilePointer_halves_by_range posix_header _
             (@Ref.library posix_header) Sample.file (-8)
             (Sample.reading Sample.plain false 0)). lia.
Defined.

(** ** The open flags *)

Lemma lor_DWORD a b : is_DWORD a -> is_DWORD b -> is_DWORD (Z.lor a b).
Proof.
  unfold is_DWORD. intros Ha Hb.
  assert (H0 : 0 <= Z.lor a b) by (apply Z.lor_nonneg; lia).
  split; [exact H0|].
  destruct (Z.eq_dec (Z.lor a b) 0) as [->|Hne]; [lia|].
  apply Z.log2_lt_pow2; [lia|].
  rewrite Z.log2_lor by lia.
  assert (Hl : forall x, 0 <= x < 2 ^ 32 -> Z.log2 x < 32).
  { intros x Hx. destruct (Z.eq_dec x 0) as [->|Hx0]; [reflexivity|].
    apply Z.log2_lt_pow2; lia. }
  pose proof (Hl a Ha). pose proof (Hl b Hb). lia.
Qed.

Lemma ldiff_lor_disjoint m o : Z.land m o = 0 -> Z.ldiff (Z.lor m o) o = m.
Proof.
  intros H. apply Z.bits_inj'. intros n Hn.
  rewrite Z.ldiff_spec, Z.lor_spec.
  assert (Hb : Z.testbit m n && Z.testbit o n = false)
    by (rewrite <- Z.land_spec, H; apply Z.bits_0).
  destruct (Z.testbit m n), (Z.testbit o n); simpl in *; congruence.
Qed.

Lemma ldiff_disjoint m o : Z.land m o = 0 -> Z.ldiff m o = m.
Proof.
  intros H. apply Z.bits_inj'. intros n Hn. rewrite Z.ldiff_spec.
  assert (Hb : Z.testbit m n && Z.testbit o n = false)
    by (rewrite <- Z.land_spec, H; apply Z.bits_0).
  destruct (Z.testbit m n), (Z.testbit o n); simpl in *; congruence.
Qed.

(** The request either overload of [OpenFile] sends first. *)
Lemma OpenFile_by_request `{hdr : CascHeader} {L : Type} `{lib : CascLib L}
    (storage : StorageHandle) (name : LPCSTR) (localeMask : DWORD)
    (printErrors zerofill : bool) (p : Process L) :
  nth_error
    (calls (snd (OpenFile_by storage name localeMask printErrors zerofill p)))
    (List.length (calls p))
  = Some (CallOpenFile (storage_get storage) name localeMask
            (open_flags name zerofill)).
Proof.
  rewrite OpenFile_by_run.
  destruct (lib_CascOpenFile (storage_get storage) name localeMask
              (open_flags name zerofill) nullptr (sys p))
    as [[opened handle] s].
  destruct opened; cbn [snd calls];
    rewrite nth_error_app2 by lia; rewrite Nat.sub_diag; reflexivity.
Qed.

(** X13.  With the zero-fill bit outside the open modes, the library
    request that [OpenFile] by name makes carries flags that are a [DWORD],
    that give back [CASC_OPEN_BY_NAME] when the zero-fill bit is cleared,
    and that have the zero-fill bit set exactly when
    [zerofillEncryptedParts] is set; the request that [OpenFile] by id
    makes does the same with [CASC_OPEN_BY_FILEID].  Asking for zero-fill
    never turns a by-name open into something else, nor a by-id open. *)
Theorem open_flags_keep_mode `{hdr : CascHeader} (Hflags : flags_ok)
    {L : Type} `{lib : CascLib L} (storage : StorageHandle)
    (localeMask : DWORD) (printErrors zerofill : bool) (p : Process L) :
  (forall fileName,
     exists flags,
       nth_error
         (calls (snd (OpenFile storage fileName localeMask printErrors
                        zerofill p)))
         (List.length (calls p))
       = Some (CallOpenFile (storage_get storage) (c_str fileName)
                 localeMask flags) /\
       is_DWORD flags /\
       Z.ldiff flags CASC_OVERCOME_ENCRYPTED = CASC_OPEN_BY_NAME /\
       (Z.land flags CASC_OVERCOME_ENCRYPTED = CASC_OVERCOME_ENCRYPTED
        <-> zerofill = true)) /\
  (forall fileDataId,
     exists flags,
       nth_error
         (calls (snd (OpenFile_id storage fileDataId localeMask printErrors
                        zerofill p)))
         (List.length (calls p))
       = Some (CallOpenFile (storage_get storage)
                 (CASC_FILE_DATA_ID fileDataId) localeMask flags) /\
       is_DWORD flags /\
       Z.ldiff flags CASC_OVERCOME_ENCRYPTED = CASC_OPEN_BY_FILEID /\
       (Z.land flags CASC_OVERCOME_ENCRYPTED = CASC_OVERCOME_ENCRYPTED
        <-> zerofill = true)).
Proof.
  assert (Hall : forall name,
            is_DWORD (open_flags name zerofill) /\
            Z.ldiff (open_flags name zerofill) CASC_OVERCOME_ENCRYPTED
            = open_mode name /\
            (Z.land (open_flags name zerofill) CASC_OVERCOME_ENCRYPTED
             = CASC_OVERCOME_ENCRYPTED <-> zerofill = true)).
  { intros name.
    pose proof (zerofill_bit Hflags name zerofill) as Hbit.
    destruct Hflags as (Hname & Hid & Hrange & Hn0 & Hi0 & _).
    assert (Hmode : is_DWORD (open_mode name) /\
                    Z.land (open_mode name) CASC_OVERCOME_ENCRYPTED = 0)
      by (destruct name; split; assumption).
    destruct Hmode as (Hdword & Hdisjoint).
    split; [|split].
    - unfold open_flags. destruct zerofill; [|exact Hdword].
      apply lor_DWORD; [exact Hdword|unfold is_DWORD; lia].
    - unfold open_flags. destruct zerofill.
      + apply ldiff_lor_disjoint. exact Hdisjoint.
      + apply ldiff_disjoint. exact Hdisjoint.
    - split.
      + intros Hset. apply Z.eqb_eq in Hset. congruence.
      + intros Hzf. apply Z.eqb_eq. congruence. }
  split.
  - intros fileName. exists (open_flags (c_str fileName) zerofill).
    split; [|exact (Hall (c_str fileName))].
    exact (OpenFile_by_request storage (c_str fileName) localeMask
             printErrors zerofill p).
  - intros fileDataId.
    exists (open_flags (CASC_FILE_DATA_ID fileDataId) zerofill).
    split; [|exact (Hall (CASC_FILE_DATA_ID fileDataId))].
    exact (OpenFile_by_request storage (CASC_FILE_DATA_ID fileDataId)
             localeMask printErrors zerofill p).
Qed.

(** Both overloads with zero-fill on the mounted sample storage, at the
    flag values of the library header: the by-name request carries 32, the
    by-id request 35, and these are the only flags the theorem admits. *)
Lemma open_flags_keep_mode_witness :
  @flags_ok posix_header /\
  calls (snd (@OpenFile posix_header _ (@Ref.library posix_header)
                Sample.storage "plain.bin" 0 false true Sample.mounted))
  = [CallOpenFile 16 (c_str "plain.bin") 0 32] /\
  calls (snd (@OpenFile_id posix_header _ (@Ref.library posix_header)
                Sample.storage 1 0 false true Sample.mounted))
  = [CallOpenFile 16 (CASC_FILE_DATA_ID 1) 0 35] /\
  (exists flags,
     nth_error
       (calls (snd (@OpenFile_id posix_header _ (@Ref.library posix_header)
                      Sample.storage 1 0 false true Sample.mounted))) 0
     = Some (CallOpenFile 16 (CASC_FILE_DATA_ID 1) 0 flags) /\
     Z.ldiff flags 32 = 3 /\ Z.land flags 32 = 32).
Proof.
  split; [exact posix_flags_ok|].
  split; [reflexivity|]. split; [reflexivity|].
  destruct (@open_flags_keep_mode posix_header posix_flags_ok _
              (@Ref.library posix_header) Sample.storage 0 false true
              Sample.mounted) as (_ & Hid).
  destruct (Hid 1) as (flags & Hcall & _ & Hmode & Hbit).
  exists flags. split; [exact Hcall|]. split; [exact Hmode|].
  apply Hbit. reflexivity.
Defined.

(** ** Diagnostics do not change behaviour *)

(** X14.  [printErrors] only decides what reaches standard error.  For
    either overload of [OpenFile] and whatever the library answers, the call
    with diagnostics on and the call with diagnostics off return the same
    handle and leave the same library state, last-error cell, standard
    output and log of calls. *)
Theorem printErrors_only_affects_stderr `{hdr : CascHeader} {L : Type}
    `{lib : CascLib L} (storage : StorageHandle) (name : LPCSTR)
    (localeMask : DWORD) (zerofill : bool) (p : Process L) :
  let loud := OpenFile_by storage name localeMask true zerofill p in
  let quiet := OpenFile_by storage name localeMask false zerofill p in
  fst loud = fst quiet /\
  sys (snd loud) = sys (snd quiet) /\
  stdout (snd loud) = stdout (snd quiet) /\
  calls (snd loud) = calls (snd quiet) /\
  stderr (snd quiet) = stderr p.
Proof.
  intros loud quiet. subst loud quiet. rewrite !OpenFile_by_run.
  destruct (lib_CascOpenFile (storage_get storage) name localeMask
              (open_flags name zerofill) nullptr (sys p))
    as [[opened handle] s].
  destruct opened; cbn [fst snd sys stdout stderr calls];
    rewrite ?app_nil_r; repeat split.
Qed.

End CASC.
